(** * Shallow embedding of the later revision of src/index.js

    [src/index.js] holds two revisions of the server one after the other
    (lines 1-449 and 451-1027).  This development embeds the later revision:
    the PesaPal routes (lines 575-832), the PayPal routes (lines 838-935),
    the developer routes (lines 950-1009) and the request pipeline around
    them.

    - JavaScript values that come from request bodies, query strings or
      remote answers are [jsval]; numbers are integers (NaN and fractions
      are not modelled) and strings are byte strings.
    - The Firestore data of the PesaPal routes is a [world]: the
      [pesapalOrders] collection as a [gmap] from document path (relative
      to the collection) to [order_doc], the [payments] collection as the
      list of documents added to it, and the trace of the calls to the
      gateway.
    - A route handler is a computation in [M], a state monad with
      JavaScript exceptions ([Thrown]); [await] is its bind.  Server
      timestamps are the [now] argument of a handler.
    - The gateway, PayPal, Firebase Auth and Firestore's verdict on each
      write are oracles: records of functions passed to the handlers.
    - Handlers run one after the other, except in the section on
      interleaved runs, which cuts the PesaPal order-creation and
      status handlers at their [await]s and lets several of them run in
      any order. *)

From Stdlib Require Import ZArith String Ascii List Lia.
From stdpp Require Import base gmap strings pretty list.
Import ListNotations.
Open Scope string_scope.
Local Set Warnings "-register-all".

(** ** JavaScript values *)

Inductive jsval :=
| JUndef
| JNull
| JBool (b : bool)
| JNum (z : Z)
| JStr (s : string)
| JArr (xs : list jsval)
| JObj (fields : list (string * jsval)).

(** JavaScript truthiness ([!v] is [negb (truthy v)]). *)
Definition truthy (v : jsval) : bool :=
  match v with
  | JUndef | JNull => false
  | JBool b => b
  | JNum z => negb (Z.eqb z 0)
  | JStr s => negb (String.eqb s "")
  | JArr _ | JObj _ => true
  end.

(** [a || b] *)
Definition js_or (a b : jsval) : jsval := if truthy a then a else b.

(** Strict equality [===] against a string literal. *)
Definition js_eq_str (v : jsval) (s : string) : bool :=
  match v with JStr t => String.eqb t s | _ => false end.

Definition Z_to_string (z : Z) : string :=
  match z with
  | Z0 => "0"
  | Zpos p => pretty (Npos p)
  | Zneg p => "-" ++ pretty (Npos p)
  end.

(** The outcome of a JavaScript computation: a value, or an exception
    with its message. *)
Inductive result (A : Type) :=
| Ok (a : A)
| Thrown (msg : string).
Arguments Ok {A} a.
Arguments Thrown {A} msg.

(** The object has an own property [toString].  A value parsed from JSON
    never holds a function, so such an object's [toString] is not
    callable. *)
Definition own_toString (fs : list (string * jsval)) : bool :=
  existsb (fun kv => String.eqb (fst kv) "toString") fs.

(** [ToString(v)], as a template literal, [String(v)] or [v + ''] apply
    it.  An object converts through its [toString] and then its [valueOf]:
    with a non-callable own [toString] the inherited [valueOf] gives the
    object back and the conversion throws a TypeError.  An array converts
    through [Array.prototype.join]: [null] and [undefined] elements give
    "", and an element that cannot be converted makes the join throw. *)
Fixpoint js_tostring (v : jsval) : result string :=
  match v with
  | JUndef => Ok "undefined"
  | JNull => Ok "null"
  | JBool true => Ok "true"
  | JBool false => Ok "false"
  | JNum z => Ok (Z_to_string z)
  | JStr s => Ok s
  | JArr xs =>
      let elem := fun x => match x with JUndef | JNull => Ok "" | _ => js_tostring x end in
      (fix join (xs : list jsval) : result string :=
         match xs with
         | [] => Ok ""
         | [x] => elem x
         | x :: rest =>
             match elem x with
             | Ok s => match join rest with Ok t => Ok (s ++ "," ++ t) | Thrown e => Thrown e end
             | Thrown e => Thrown e
             end
         end) xs
  | JObj fs =>
      if own_toString fs then Thrown "Cannot convert object to primitive value"
      else Ok "[object Object]"
  end.

(** The string [js_tostring] gives ("" where it throws). *)
Definition js_to_string (v : jsval) : string :=
  match js_tostring v with Ok s => s | Thrown _ => "" end.

(** [ToString(v)] does not throw. *)
Definition stringifiable (v : jsval) : bool :=
  match js_tostring v with Ok _ => true | Thrown _ => false end.

(** A one-character string holding a double quote. *)
Definition dq : string := String (Ascii.ascii_of_nat 34) EmptyString.

(** [JSON.stringify(v)] for the values a JSON body can hold (string
    escapes are not modelled). *)
Fixpoint js_stringify (v : jsval) : string :=
  match v with
  | JUndef => "undefined"
  | JNull => "null"
  | JBool true => "true"
  | JBool false => "false"
  | JNum z => Z_to_string z
  | JStr s => dq ++ s ++ dq
  | JArr xs =>
      "[" ++
      (fix go (xs : list jsval) : string :=
         match xs with
         | [] => ""
         | [x] => match x with JUndef => "null" | _ => js_stringify x end
         | x :: rest =>
             match x with JUndef => "null" | _ => js_stringify x end ++ "," ++ go rest
         end) xs ++ "]"
  | JObj fs =>
      "{" ++
      (fix go (fs : list (string * jsval)) : string :=
         match fs with
         | [] => ""
         | (k, JUndef) :: rest => go rest
         | (k, x) :: rest =>
             let rest_s := go rest in
             dq ++ k ++ dq ++ ":" ++ js_stringify x ++
             (if String.eqb rest_s "" then "" else "," ++ rest_s)
         end) fs ++ "}"
  end.

(** [s.split(' ')]: the pieces between the spaces, empty pieces kept. *)
Fixpoint split_space_aux (s : string) (cur : string) : list string :=
  match s with
  | EmptyString => [cur]
  | String c rest =>
      if Ascii.eqb c " "%char then cur :: split_space_aux rest ""
      else split_space_aux rest (cur ++ String c EmptyString)
  end.

Definition split_space (s : string) : list string := split_space_aux s "".

(** [xs[i]] on an array of strings: [undefined] out of range. *)
Definition js_index (xs : list string) (i : nat) : jsval :=
  match nth_error xs i with Some s => JStr s | None => JUndef end.

(** Property access [v.k] on a JSON value (objects have distinct keys);
    [null.k] and [undefined.k] throw a TypeError. *)
Definition js_prop (v : jsval) (k : string) : result jsval :=
  match v with
  | JUndef | JNull =>
      Thrown ("Cannot read properties of " ++ js_to_string v ++ " (reading '" ++ k ++ "')")
  | JObj fs =>
      match find (fun kv => String.eqb (fst kv) k) fs with
      | Some (_, x) => Ok x
      | None => Ok JUndef
      end
  | _ => Ok JUndef
  end.

(** Destructuring of a request body parsed by [express.json()], or of
    [req.query]. *)
Definition field (body : list (string * jsval)) (k : string) : jsval :=
  match find (fun kv => String.eqb (fst kv) k) body with
  | Some (_, x) => x
  | None => JUndef
  end.

(** ** Firestore *)

(** A document's data, as its fields in order. *)
Definition fdoc := list (string * jsval).

(** No [undefined] anywhere in the value. *)
Fixpoint no_undef (v : jsval) : bool :=
  match v with
  | JUndef => false
  | JArr xs => forallb no_undef xs
  | JObj fs => forallb (fun kv => no_undef (snd kv)) fs
  | _ => true
  end.

Definition fdoc_ok (d : fdoc) : bool := forallb (fun kv => no_undef (snd kv)) d.

(** The kinds of writes the routes make: [set], [set] with [merge: true],
    [update], [add] and [batch.set]. *)
Inductive fs_op := FsSet | FsSetMerge | FsUpdate | FsAdd | FsBatchSet.

(** A write as Firestore checks it: its kind, the document path (the
    collection's path for [add]), the data, a server timestamp given as
    the time it stands for, and whether the document exists. *)
Record fs_write := {
  fw_op : fs_op;
  fw_path : string;
  fw_data : fdoc;
  fw_exists : bool
}.

(** Firestore as an oracle.  [fs_refuse] gives its verdict on a write,
    [Some msg] when the write fails with error [msg]: the checks of the
    client library (values, nesting depth, field names) and of the server
    (nested arrays, reserved ids, sizes, rules, ...).  For [batch.set]
    only the client's checks apply; the server's come at [batch.commit],
    whose verdict is [fs_refuse_commit].  An [update] the verdict lets
    through fails on a missing document ([not_found]).  The one check the
    model fixes: [undefined] anywhere in the data is refused, as these
    routes never enable [ignoreUndefinedProperties]. *)
Record firestore := {
  fs_projectId : string;
  fs_refuse : fs_write -> option string;
  fs_refuse_commit : list fs_write -> option string;
  fs_refuse_undefined : forall fw, fdoc_ok (fw_data fw) = false -> fs_refuse fw <> None
}.

(** The error of an [update] of the missing document [path]. *)
Definition not_found (db : firestore) (path : string) : string :=
  "5 NOT_FOUND: No document to update: projects/" ++ fs_projectId db ++
  "/databases/(default)/documents/" ++ path.

(** [s.split('/')] *)
Fixpoint split_slash_aux (s : string) (cur : string) : list string :=
  match s with
  | EmptyString => [cur]
  | String c rest =>
      if Ascii.eqb c "/"%char then cur :: split_slash_aux rest ""
      else split_slash_aux rest (cur ++ String c EmptyString)
  end.

(** [s] contains ["//"]. *)
Fixpoint has_double_slash (s : string) : bool :=
  match s with
  | String c ((String d _) as rest) =>
      (Ascii.eqb c "/"%char && Ascii.eqb d "/"%char) || has_double_slash rest
  | _ => false
  end.

(** The message of an invalid [documentPath] argument. *)
Definition invalid_path (detail : string) : string :=
  "Value for argument " ++ dq ++ "documentPath" ++ dq ++ " is not a valid resource path. " ++
  detail.

(** [collection.doc(v)]: [v] must be a non-empty string without ["//"]
    ([validateResourcePath]); its segments, empty ones dropped, are added
    to the collection's and must name a document, i.e. be odd in number.
    The result is the document's path relative to the collection. *)
Definition doc_path (v : jsval) : result string :=
  match v with
  | JStr s =>
      if String.eqb s "" then Thrown (invalid_path "Path must be a non-empty string.")
      else if has_double_slash s then Thrown (invalid_path "Paths must not contain //.")
      else
        let segs := List.filter (fun x => negb (String.eqb x "")) (split_slash_aux s "") in
        if Nat.even (length segs) then
          Thrown ("Value for argument " ++ dq ++ "documentPath" ++ dq ++
                  " must point to a document, but was " ++ dq ++ s ++ dq ++
                  ". Your path does not contain an even number of components.")
        else Ok (String.concat "/" segs)
  | _ => Thrown (invalid_path "Path must be a non-empty string.")
  end.

Definition is_stored {X} (o : option X) : bool := match o with Some _ => true | None => false end.

(** ** The PesaPal state and its monad *)

(** A document of the [pesapalOrders] collection. *)
Record order_doc := {
  od_orderId : string;
  od_amount : jsval;
  od_currency : jsval;
  od_planId : jsval;
  od_planName : jsval;
  od_customerEmail : jsval;
  od_customerName : jsval;
  od_status : jsval;
  od_createdAt : option Z;
  od_redirectUrl : jsval;
  od_updatedAt : option Z;
  od_ipnReceivedAt : option Z
}.

(** The fields the [set] of lines 688-699 writes. *)
Definition order_doc_data (d : order_doc) : fdoc :=
  [("orderId", JStr (od_orderId d)); ("amount", od_amount d); ("currency", od_currency d);
   ("planId", od_planId d); ("planName", od_planName d);
   ("customerEmail", od_customerEmail d); ("customerName", od_customerName d);
   ("status", od_status d);
   ("createdAt", match od_createdAt d with Some t => JNum t | None => JNull end);
   ("redirectUrl", od_redirectUrl d)].

(** A document of the [payments] collection. *)
Record payment_doc := {
  pd_userId : string;
  pd_email : jsval;
  pd_planId : jsval;
  pd_planName : jsval;
  pd_amount : jsval;
  pd_currency : jsval;
  pd_paymentMethod : string;
  pd_createdAt : Z;
  pd_status : string;
  pd_orderId : jsval
}.

Definition payment_doc_data (p : payment_doc) : fdoc :=
  [("userId", JStr (pd_userId p)); ("email", pd_email p); ("planId", pd_planId p);
   ("planName", pd_planName p); ("amount", pd_amount p); ("currency", pd_currency p);
   ("paymentMethod", JStr (pd_paymentMethod p)); ("createdAt", JNum (pd_createdAt p));
   ("status", JStr (pd_status p)); ("orderId", pd_orderId p)].

(** The body sent to [SubmitOrderRequest] ([orderData]). *)
Record billing_address := {
  ba_email_address : jsval;
  ba_first_name : jsval;
  ba_last_name : jsval
}.

Record order_data := {
  odt_id : string;
  odt_currency : jsval;
  odt_amount : jsval;
  odt_description : string;
  odt_callback_url : string;
  odt_notification_id : string;
  odt_billing_address : billing_address
}.

(** A call to the gateway ([fetch] called), with the bearer token it
    carries and, for the status query, the tracking id as it is put in the
    URL. *)
Inductive call :=
| CallRequestToken
| CallSubmitOrder (token : jsval) (body : order_data)
| CallGetTransactionStatus (token : jsval) (orderTrackingId : string).

Record world := {
  pesapalOrders : gmap string order_doc;
  payments : list payment_doc;
  calls : list call
}.

Definition M (A : Type) := world -> result A * world.

Definition retM {A} (a : A) : M A := fun w => (Ok a, w).

Definition throwM {A} (msg : string) : M A := fun w => (Thrown msg, w).

Definition bindM {A B} (m : M A) (k : A -> M B) : M B :=
  fun w =>
    match m w with
    | (Ok a, w') => k a w'
    | (Thrown e, w') => (Thrown e, w')
    end.

(** [try { m } catch (error) { h(error.message) }] *)
Definition catchM {A} (m : M A) (h : string -> M A) : M A :=
  fun w =>
    match m w with
    | (Ok a, w') => (Ok a, w')
    | (Thrown e, w') => h e w'
    end.

Notation "'await' x <- c ; k" := (bindM c (fun x => k))
  (at level 200, x name, c at level 100, k at level 200).
Notation "'do_' c ; k" := (bindM c (fun _ => k))
  (at level 200, c at level 100, k at level 200).

(** A synchronous step that may throw. *)
Definition liftM {A} (r : result A) : M A := fun w => (r, w).

(** Record a call to the gateway. *)
Definition log_call (c : call) : M unit :=
  fun w => (Ok tt, {| pesapalOrders := pesapalOrders w; payments := payments w;
                      calls := calls w ++ [c] |}).

(** ** Gateway responses

    [fetch] either rejects (connection failure, the 25s abort, an invalid
    header) or yields a response: its status code, its text, and its body
    parsed as JSON ([Thrown] with the parse error when [response.json()]
    rejects). *)

Inductive fetch_result :=
| FetchRejected (msg : string)
| Http (status : Z) (text : string) (json : result jsval).

(** [response.ok] *)
Definition http_ok (status : Z) : bool := (200 <=? status)%Z && (status <=? 299)%Z.

(** The gateway as an oracle: the response to each of its three calls. *)
Record gateway := {
  gw_RequestToken : fetch_result;
  gw_SubmitOrderRequest : jsval -> order_data -> fetch_result;
  gw_GetTransactionStatus : jsval -> string -> fetch_result
}.

(** [await fetch(...)]: the call is made (and traced) before its outcome. *)
Definition fetchM (c : call) (r : fetch_result) : M (Z * string * result jsval) :=
  do_ log_call c;
  match r with
  | FetchRejected msg => throwM msg
  | Http st txt js => retM (st, txt, js)
  end.

(** [await response.json()] *)
Definition jsonM (js : result jsval) : M jsval :=
  match js with
  | Ok v => retM v
  | Thrown e => throwM e
  end.

Definition js_get (v : jsval) (k : string) : M jsval := liftM (js_prop v k).

(** ** The PesaPal collections *)

(** [orderRef.update(data)] on [pesapalOrders/id]; [f] applies [data] to
    the stored order.  Firestore's verdict comes first; an update it lets
    through fails with NOT_FOUND on a missing document. *)
Definition fs_update (db : firestore) (id : string) (data : fdoc)
    (f : order_doc -> order_doc) : M unit :=
  fun w =>
    let path := "pesapalOrders/" ++ id in
    match fs_refuse db {| fw_op := FsUpdate; fw_path := path; fw_data := data;
                          fw_exists := is_stored (pesapalOrders w !! id) |} with
    | Some msg => (Thrown msg, w)
    | None =>
        match pesapalOrders w !! id with
        | None => (Thrown (not_found db path), w)
        | Some d =>
            (Ok tt, {| pesapalOrders := <[id := f d]> (pesapalOrders w);
                       payments := payments w; calls := calls w |})
        end
    end.

(** [(await orderRef.get()).data()]: [undefined] for a missing document. *)
Definition fs_get (id : string) : M (option order_doc) :=
  fun w => (Ok (pesapalOrders w !! id), w).

(** [orderRef.set(d, { merge: true })]: the fields written replace the
    stored ones; the fields it does not name ([updatedAt],
    [ipnReceivedAt]) are kept. *)
Definition merge_set (d : order_doc) (old : option order_doc) : order_doc :=
  match old with
  | None => d
  | Some o =>
      {| od_orderId := od_orderId d; od_amount := od_amount d;
         od_currency := od_currency d; od_planId := od_planId d;
         od_planName := od_planName d; od_customerEmail := od_customerEmail d;
         od_customerName := od_customerName d; od_status := od_status d;
         od_createdAt := od_createdAt d; od_redirectUrl := od_redirectUrl d;
         od_updatedAt := od_updatedAt o; od_ipnReceivedAt := od_ipnReceivedAt o |}
  end.

Definition fs_set_merge (db : firestore) (id : string) (d : order_doc) : M unit :=
  fun w =>
    match fs_refuse db {| fw_op := FsSetMerge; fw_path := "pesapalOrders/" ++ id;
                          fw_data := order_doc_data d;
                          fw_exists := is_stored (pesapalOrders w !! id) |} with
    | Some msg => (Thrown msg, w)
    | None =>
        (Ok tt, {| pesapalOrders := <[id := merge_set d (pesapalOrders w !! id)]> (pesapalOrders w);
                   payments := payments w; calls := calls w |})
    end.

(** [db.collection('payments').add(p)] *)
Definition fs_add_payment (db : firestore) (p : payment_doc) : M unit :=
  fun w =>
    match fs_refuse db {| fw_op := FsAdd; fw_path := "payments";
                          fw_data := payment_doc_data p; fw_exists := false |} with
    | Some msg => (Thrown msg, w)
    | None =>
        (Ok tt, {| pesapalOrders := pesapalOrders w; payments := payments w ++ [p];
                   calls := calls w |})
    end.

(** ** HTTP responses *)

Inductive response :=
| RespJson (status : Z) (body : list (string * jsval))
| RespText (status : Z) (body : string).

Definition resp_status (r : response) : Z :=
  match r with RespJson st _ => st | RespText st _ => st end.

(** ** The PesaPal route handlers *)

(** The environment variables the PesaPal routes read. *)
Record pesapal_env := {
  PESAPAL_CONSUMER_KEY : option string;
  PESAPAL_CONSUMER_SECRET : option string;
  PESAPAL_CALLBACK_URL : option string;
  PESAPAL_IPN_URL : option string
}.

(** [process.env.X] is set to a non-empty string (truthy). *)
Definition env_set (x : option string) : bool :=
  match x with Some s => negb (String.eqb s "") | None => false end.

(** [process.env.X || dflt] *)
Definition env_or (x : option string) (dflt : string) : string :=
  match x with
  | Some s => if String.eqb s "" then dflt else s
  | None => dflt
  end.

Definition credentials_set (E : pesapal_env) : bool :=
  env_set (PESAPAL_CONSUMER_KEY E) && env_set (PESAPAL_CONSUMER_SECRET E).

(** [getPesaPalAuthHeader()] (lines 527-566): it throws when a credential
    is missing; the OAuth header it builds otherwise is not looked at by
    the gateway oracle. *)
Definition getPesaPalAuthHeader (E : pesapal_env) : result unit :=
  if credentials_set E then Ok tt else Thrown "PesaPal credentials not configured".

(** [customerName?.split(' ')[i]] *)
Definition name_part (customerName : jsval) (i : nat) : result jsval :=
  match customerName with
  | JUndef | JNull => Ok JUndef
  | JStr s => Ok (js_index (split_space s) i)
  | _ => Thrown "customerName?.split is not a function"
  end.

(** [POST /api/create-pesapal-order] (lines 580-715).  [now] is
    [Date.now()] and the server timestamp, [rnd] is
    [Math.floor(Math.random() * 1000)].  The [stack] field of the error
    body, sent in development only, is left out.  The template literals
    of [description] and of the [Authorization] header convert [planName]
    and the token with [ToString]. *)
Definition create_pesapal_order (E : pesapal_env) (db : firestore) (gw : gateway) (now rnd : Z)
    (body : list (string * jsval)) : M response :=
  let amount := field body "amount" in
  let currency := field body "currency" in
  let planId := field body "planId" in
  let planName := field body "planName" in
  let customerEmail := field body "customerEmail" in
  let customerName := field body "customerName" in
  catchM
    (if negb (truthy amount) || negb (truthy currency) || negb (truthy customerEmail)
     then retM (RespJson 400
                  [("message", JStr "Missing required fields");
                   ("required", JArr [JStr "amount"; JStr "currency"; JStr "customerEmail"])])
     else
     let orderId := "BRANDIFY-" ++ Z_to_string now ++ "-" ++ Z_to_string rnd in
     do_ liftM (getPesaPalAuthHeader E);
     await authResponse <- fetchM CallRequestToken (gw_RequestToken gw);
     let '(auth_st, auth_text, auth_json) := authResponse in
     if negb (http_ok auth_st) then
       throwM ("PesaPal auth failed: " ++ Z_to_string auth_st ++ " - " ++ auth_text)
     else
     await authData <- jsonM auth_json;
     await accessToken <- js_get authData "token";
     if negb (truthy accessToken) then throwM "PesaPal did not return an access token"
     else
     await plan <- liftM (js_tostring (js_or planName (JStr "Plan")));
     await first <- liftM (name_part customerName 0);
     await last <- liftM (name_part customerName 1);
     let orderData :=
       {| odt_id := orderId; odt_currency := currency; odt_amount := amount;
          odt_description := plan ++ " Subscription";
          odt_callback_url := env_or (PESAPAL_CALLBACK_URL E) "https://brandifyblog.web.app/pesapal-callback";
          odt_notification_id := env_or (PESAPAL_IPN_URL E) "https://brand-backend-y2fk.onrender.com/api/pesapal-ipn";
          odt_billing_address :=
            {| ba_email_address := customerEmail;
               ba_first_name := js_or first (JStr "Customer");
               ba_last_name := js_or last (JStr "") |} |} in
     do_ liftM (js_tostring accessToken);
     await orderResponse <-
       fetchM (CallSubmitOrder accessToken orderData)
              (gw_SubmitOrderRequest gw accessToken orderData);
     let '(ord_st, ord_text, ord_json) := orderResponse in
     if negb (http_ok ord_st) then
       throwM ("PesaPal order submission failed: " ++ Z_to_string ord_st ++ " - " ++ ord_text)
     else
     await orderResult <- jsonM ord_json;
     await redirect_url <- js_get orderResult "redirect_url";
     if negb (truthy redirect_url) then throwM "PesaPal did not return a redirect URL"
     else
     do_ fs_set_merge db orderId
           {| od_orderId := orderId; od_amount := amount; od_currency := currency;
              od_planId := js_or planId JNull; od_planName := js_or planName JNull;
              od_customerEmail := customerEmail;
              od_customerName := js_or customerName JNull;
              od_status := JStr "PENDING"; od_createdAt := Some now;
              od_redirectUrl := redirect_url;
              od_updatedAt := None; od_ipnReceivedAt := None |};
     retM (RespJson 200
             [("iframeUrl", redirect_url); ("orderId", JStr orderId);
              ("message", JStr "PesaPal order created successfully")]))
    (fun e => retM (RespJson 500
                      [("message", JStr "Failed to create PesaPal order");
                       ("error", JStr e)])).

(** [GET /api/pesapal-payment-status] (lines 717-793); [orderId] is
    [req.query.orderId].  The URL of the status query holds [orderId] and
    its [Authorization] header the token, both converted with
    [ToString]. *)
Definition pesapal_payment_status (E : pesapal_env) (db : firestore) (gw : gateway) (now : Z)
    (orderId : jsval) : M response :=
  catchM
    (if negb (truthy orderId)
     then retM (RespJson 400 [("message", JStr "orderId is required")])
     else
     do_ liftM (getPesaPalAuthHeader E);
     await authResponse <- fetchM CallRequestToken (gw_RequestToken gw);
     let '(auth_st, _, auth_json) := authResponse in
     if negb (http_ok auth_st) then
       (await errorData <- jsonM auth_json;
        throwM ("PesaPal auth failed: " ++ Z_to_string auth_st ++ " - " ++ js_stringify errorData))
     else
     await authData <- jsonM auth_json;
     await accessToken <- js_get authData "token";
     if negb (truthy accessToken) then throwM "PesaPal did not return an access token"
     else
     await trackingId <- liftM (js_tostring orderId);
     do_ liftM (js_tostring accessToken);
     await statusResponse <-
       fetchM (CallGetTransactionStatus accessToken trackingId)
              (gw_GetTransactionStatus gw accessToken trackingId);
     let '(st_st, st_text, st_json) := statusResponse in
     if negb (http_ok st_st) then
       throwM ("Status check failed: " ++ Z_to_string st_st ++ " - " ++ st_text)
     else
     await statusData <- jsonM st_json;
     await payment_status <- js_get statusData "payment_status";
     do_ (if truthy payment_status then
            await id <- liftM (doc_path orderId);
            fs_update db id [("status", payment_status); ("updatedAt", JNum now)] (fun d =>
              {| od_orderId := od_orderId d; od_amount := od_amount d;
                 od_currency := od_currency d; od_planId := od_planId d;
                 od_planName := od_planName d; od_customerEmail := od_customerEmail d;
                 od_customerName := od_customerName d; od_status := payment_status;
                 od_createdAt := od_createdAt d; od_redirectUrl := od_redirectUrl d;
                 od_updatedAt := Some now; od_ipnReceivedAt := od_ipnReceivedAt d |})
          else retM tt);
     retM (RespJson 200 [("status", payment_status); ("details", statusData)]))
    (fun e => retM (RespJson 500
                      [("message", JStr "Failed to check payment status");
                       ("error", JStr e)])).

(** The payment record of lines 810-821. *)
Definition ipn_payment (orderData : order_doc) (now : Z) (order_tracking_id : jsval)
    : payment_doc :=
  {| pd_userId := ""; pd_email := od_customerEmail orderData;
     pd_planId := od_planId orderData; pd_planName := od_planName orderData;
     pd_amount := od_amount orderData; pd_currency := od_currency orderData;
     pd_paymentMethod := "pesapal"; pd_createdAt := now;
     pd_status := "completed"; pd_orderId := order_tracking_id |}.

(** [POST /api/pesapal-ipn] (lines 796-832).  The [console.log] of line
    798, before the [try], converts both fields with [ToString]: when that
    throws, the handler throws and the request is left unanswered. *)
Definition pesapal_ipn (db : firestore) (now : Z) (body : list (string * jsval)) : M response :=
  let order_tracking_id := field body "order_tracking_id" in
  let payment_status := field body "payment_status" in
  do_ liftM (js_tostring order_tracking_id);
  do_ liftM (js_tostring payment_status);
  catchM
    (await id <- liftM (doc_path order_tracking_id);
     do_ fs_update db id [("status", payment_status); ("ipnReceivedAt", JNum now)] (fun d =>
           {| od_orderId := od_orderId d; od_amount := od_amount d;
              od_currency := od_currency d; od_planId := od_planId d;
              od_planName := od_planName d; od_customerEmail := od_customerEmail d;
              od_customerName := od_customerName d; od_status := payment_status;
              od_createdAt := od_createdAt d; od_redirectUrl := od_redirectUrl d;
              od_updatedAt := od_updatedAt d; od_ipnReceivedAt := Some now |});
     do_ (if js_eq_str payment_status "COMPLETED" then
            await orderDoc <- fs_get id;
            match orderDoc with
            | None => throwM "Cannot read properties of undefined (reading 'customerEmail')"
            | Some orderData => fs_add_payment db (ipn_payment orderData now order_tracking_id)
            end
          else retM tt);
     retM (RespText 200 "OK"))
    (fun _ => retM (RespText 500 "Error processing IPN")).

(** The status code of a handler outcome ([None]: no response). *)
Definition resp_status_of (r : result response) : option Z :=
  match r with Ok resp => Some (resp_status resp) | Thrown _ => None end.

(** ** Interleaved runs

    Node runs a handler until an [await] whose value is not there yet;
    other handlers run in between.  [RM A] is a handler cut at its
    [await]s: finished with its outcome, or a step that runs at once,
    changing the world by [eff] and leaving the rest of the handler
    [next] (both given the world the step starts from). *)
Inductive RM (A : Type) : Type :=
| RDone (r : result A)
| RStep (eff : world -> world) (next : world -> RM A).
Arguments RDone {A} r.
Arguments RStep {A} eff next.

Definition rret {A} (a : A) : RM A := RDone (Ok a).

(** A synchronous computation that may throw. *)
Definition rlift {A} (r : result A) : RM A := RDone r.

(** An awaited operation, as one step. *)
Definition ratom {A} (m : M A) : RM A :=
  RStep (fun w => snd (m w)) (fun w => RDone (fst (m w))).

Fixpoint rbind {A B} (m : RM A) (k : A -> RM B) : RM B :=
  match m with
  | RDone (Ok a) => k a
  | RDone (Thrown e) => RDone (Thrown e)
  | RStep eff next => RStep eff (fun w => rbind (next w) k)
  end.

Fixpoint rcatch {A} (m : RM A) (h : string -> RM A) : RM A :=
  match m with
  | RDone (Ok a) => RDone (Ok a)
  | RDone (Thrown e) => h e
  | RStep eff next => RStep eff (fun w => rcatch (next w) h)
  end.

Notation "'rawait' x <- c ; k" := (rbind c (fun x => k))
  (at level 200, x name, c at level 100, k at level 200).
Notation "'rdo' c ; k" := (rbind c (fun _ => k))
  (at level 200, c at level 100, k at level 200).

(** [await fetch(...)]: the call is sent by the step that reaches it; the
    handler then waits for the response. *)
Definition rfetch (c : call) (r : fetch_result) : RM (Z * string * result jsval) :=
  rdo ratom (log_call c);
  match r with
  | FetchRejected msg => RDone (Thrown msg)
  | Http st txt js => rret (st, txt, js)
  end.

(** [create_pesapal_order] cut at its [await]s: the two [fetch] calls,
    the two [response.json()] and the [set]. *)
Definition create_pesapal_order_steps (E : pesapal_env) (db : firestore) (gw : gateway)
    (now rnd : Z) (body : list (string * jsval)) : RM response :=
  let amount := field body "amount" in
  let currency := field body "currency" in
  let planId := field body "planId" in
  let planName := field body "planName" in
  let customerEmail := field body "customerEmail" in
  let customerName := field body "customerName" in
  rcatch
    (if negb (truthy amount) || negb (truthy currency) || negb (truthy customerEmail)
     then rret (RespJson 400
                  [("message", JStr "Missing required fields");
                   ("required", JArr [JStr "amount"; JStr "currency"; JStr "customerEmail"])])
     else
     let orderId := "BRANDIFY-" ++ Z_to_string now ++ "-" ++ Z_to_string rnd in
     rdo rlift (getPesaPalAuthHeader E);
     rawait authResponse <- rfetch CallRequestToken (gw_RequestToken gw);
     let '(auth_st, auth_text, auth_json) := authResponse in
     if negb (http_ok auth_st) then
       RDone (Thrown ("PesaPal auth failed: " ++ Z_to_string auth_st ++ " - " ++ auth_text))
     else
     rawait authData <- ratom (jsonM auth_json);
     rawait accessToken <- rlift (js_prop authData "token");
     if negb (truthy accessToken) then RDone (Thrown "PesaPal did not return an access token")
     else
     rawait plan <- rlift (js_tostring (js_or planName (JStr "Plan")));
     rawait first <- rlift (name_part customerName 0);
     rawait last <- rlift (name_part customerName 1);
     let orderData :=
       {| odt_id := orderId; odt_currency := currency; odt_amount := amount;
          odt_description := plan ++ " Subscription";
          odt_callback_url := env_or (PESAPAL_CALLBACK_URL E) "https://brandifyblog.web.app/pesapal-callback";
          odt_notification_id := env_or (PESAPAL_IPN_URL E) "https://brand-backend-y2fk.onrender.com/api/pesapal-ipn";
          odt_billing_address :=
            {| ba_email_address := customerEmail;
               ba_first_name := js_or first (JStr "Customer");
               ba_last_name := js_or last (JStr "") |} |} in
     rdo rlift (js_tostring accessToken);
     rawait orderResponse <-
       rfetch (CallSubmitOrder accessToken orderData)
              (gw_SubmitOrderRequest gw accessToken orderData);
     let '(ord_st, ord_text, ord_json) := orderResponse in
     if negb (http_ok ord_st) then
       RDone (Thrown ("PesaPal order submission failed: " ++ Z_to_string ord_st ++ " - " ++ ord_text))
     else
     rawait orderResult <- ratom (jsonM ord_json);
     rawait redirect_url <- rlift (js_prop orderResult "redirect_url");
     if negb (truthy redirect_url) then RDone (Thrown "PesaPal did not return a redirect URL")
     else
     rdo ratom (fs_set_merge db orderId
           {| od_orderId := orderId; od_amount := amount; od_currency := currency;
              od_planId := js_or planId JNull; od_planName := js_or planName JNull;
              od_customerEmail := customerEmail;
              od_customerName := js_or customerName JNull;
              od_status := JStr "PENDING"; od_createdAt := Some now;
              od_redirectUrl := redirect_url;
              od_updatedAt := None; od_ipnReceivedAt := None |});
     rret (RespJson 200
             [("iframeUrl", redirect_url); ("orderId", JStr orderId);
              ("message", JStr "PesaPal order created successfully")]))
    (fun e => rret (RespJson 500
                      [("message", JStr "Failed to create PesaPal order");
                       ("error", JStr e)])).

(** [pesapal_payment_status] cut at its [await]s: the two [fetch] calls,
    the [response.json()] calls and the [update]. *)
Definition pesapal_payment_status_steps (E : pesapal_env) (db : firestore) (gw : gateway)
    (now : Z) (orderId : jsval) : RM response :=
  rcatch
    (if negb (truthy orderId)
     then rret (RespJson 400 [("message", JStr "orderId is required")])
     else
     rdo rlift (getPesaPalAuthHeader E);
     rawait authResponse <- rfetch CallRequestToken (gw_RequestToken gw);
     let '(auth_st, _, auth_json) := authResponse in
     if negb (http_ok auth_st) then
       (rawait errorData <- ratom (jsonM auth_json);
        RDone (Thrown ("PesaPal auth failed: " ++ Z_to_string auth_st ++ " - " ++ js_stringify errorData)))
     else
     rawait authData <- ratom (jsonM auth_json);
     rawait accessToken <- rlift (js_prop authData "token");
     if negb (truthy accessToken) then RDone (Thrown "PesaPal did not return an access token")
     else
     rawait trackingId <- rlift (js_tostring orderId);
     rdo rlift (js_tostring accessToken);
     rawait statusResponse <-
       rfetch (CallGetTransactionStatus accessToken trackingId)
              (gw_GetTransactionStatus gw accessToken trackingId);
     let '(st_st, st_text, st_json) := statusResponse in
     if negb (http_ok st_st) then
       RDone (Thrown ("Status check failed: " ++ Z_to_string st_st ++ " - " ++ st_text))
     else
     rawait statusData <- ratom (jsonM st_json);
     rawait payment_status <- rlift (js_prop statusData "payment_status");
     rdo (if truthy payment_status then
            rawait id <- rlift (doc_path orderId);
            ratom (fs_update db id [("status", payment_status); ("updatedAt", JNum now)] (fun d =>
              {| od_orderId := od_orderId d; od_amount := od_amount d;
                 od_currency := od_currency d; od_planId := od_planId d;
                 od_planName := od_planName d; od_customerEmail := od_customerEmail d;
                 od_customerName := od_customerName d; od_status := payment_status;
                 od_createdAt := od_createdAt d; od_redirectUrl := od_redirectUrl d;
                 od_updatedAt := Some now; od_ipnReceivedAt := od_ipnReceivedAt d |}))
          else rret tt);
     rret (RespJson 200 [("status", payment_status); ("details", statusData)]))
    (fun e => rret (RespJson 500
                      [("message", JStr "Failed to check payment status");
                       ("error", JStr e)])).

(** A handler run alone, step after step. *)
Fixpoint run_steps {A} (m : RM A) : M A :=
  match m with
  | RDone r => fun w => (r, w)
  | RStep eff next => fun w => run_steps (next w) (eff w)
  end.

(** Handlers run together: each entry of the schedule lets the handler at
    that index take its next step (a finished handler, or an index out of
    range, is skipped). *)
Fixpoint run_interleaved {A} (sched : list nat) (hs : list (RM A)) (w : world)
    : list (RM A) * world :=
  match sched with
  | [] => (hs, w)
  | i :: rest =>
      match hs !! i with
      | Some (RStep eff next) => run_interleaved rest (<[i := next w]> hs) (eff w)
      | _ => run_interleaved rest hs w
      end
  end.

Definition finished {A} (m : RM A) : bool :=
  match m with RDone _ => true | RStep _ _ => false end.

(** PesaPal requests in flight together: order creations, each with its
    gateway answers, [Date.now()], random suffix and body, and status
    polls, each with its gateway answers, [Date.now()] and [orderId]. *)
Inductive pesapal_request :=
| ReqCreate (gw : gateway) (now rnd : Z) (body : list (string * jsval))
| ReqStatus (gw : gateway) (now : Z) (orderId : jsval).

Definition pesapal_handler (E : pesapal_env) (db : firestore) (r : pesapal_request) : RM response :=
  match r with
  | ReqCreate gw now rnd body => create_pesapal_order_steps E db gw now rnd body
  | ReqStatus gw now orderId => pesapal_payment_status_steps E db gw now orderId
  end.

Definition pesapal_handlers (E : pesapal_env) (db : firestore) (reqs : list pesapal_request)
    : list (RM response) :=
  map (pesapal_handler E db) reqs.

(** ** Sample inputs and derived notions *)

Definition empty_world : world := {| pesapalOrders := ∅; payments := []; calls := [] |}.

(** Credentials set, callback and IPN URLs left to their defaults. *)
Definition sample_env : pesapal_env :=
  {| PESAPAL_CONSUMER_KEY := Some "key"; PESAPAL_CONSUMER_SECRET := Some "secret";
     PESAPAL_CALLBACK_URL := None; PESAPAL_IPN_URL := None |}.

Definition sample_refuse (fw : fs_write) : option string :=
  if fdoc_ok (fw_data fw) then None else Some "Cannot use undefined as a Firestore value".

(** A database that refuses exactly the writes holding [undefined]. *)
Definition sample_db : firestore.
Proof.
  refine {| fs_projectId := "brandify"; fs_refuse := sample_refuse;
            fs_refuse_commit := fun _ => None |}.
  intros fw H. unfold sample_refuse. rewrite H. discriminate.
Defined.

(** A gateway that issues token ["tok"], accepts every order with tracking
    id ["T-1"] and reports [status] for every tracking id. *)
Definition sample_gateway (status : string) : gateway :=
  {| gw_RequestToken := Http 200 "" (Ok (JObj [("token", JStr "tok")]));
     gw_SubmitOrderRequest := fun _ _ =>
       Http 200 "" (Ok (JObj [("order_tracking_id", JStr "T-1");
                              ("redirect_url", JStr "https://pay.example/T-1")]));
     gw_GetTransactionStatus := fun _ _ =>
       Http 200 "" (Ok (JObj [("payment_status", JStr status)])) |}.

(** The same gateway, with a submission answer of its own. *)
Definition gateway_with_submit (r : fetch_result) : gateway :=
  {| gw_RequestToken := gw_RequestToken (sample_gateway "COMPLETED");
     gw_SubmitOrderRequest := fun _ _ => r;
     gw_GetTransactionStatus := gw_GetTransactionStatus (sample_gateway "COMPLETED") |}.

Definition sample_order_request : list (string * jsval) :=
  [("amount", JNum 1000); ("currency", JStr "KES"); ("customerEmail", JStr "a@b.com")].

(** The [orderData] that [create_pesapal_order] sends for
    [sample_order_request] at [Date.now() = 1], random suffix [2], with
    the default URLs. *)
Definition sample_order_data : order_data :=
  {| odt_id := "BRANDIFY-1-2"; odt_currency := JStr "KES"; odt_amount := JNum 1000;
     odt_description := "Plan Subscription";
     odt_callback_url := "https://brandifyblog.web.app/pesapal-callback";
     odt_notification_id := "https://brand-backend-y2fk.onrender.com/api/pesapal-ipn";
     odt_billing_address :=
       {| ba_email_address := JStr "a@b.com"; ba_first_name := JStr "Customer";
          ba_last_name := JStr "" |} |}.

(** A stored order with the given status. *)
Definition sample_doc (status : string) : order_doc :=
  {| od_orderId := "BRANDIFY-1-2"; od_amount := JNum 1000; od_currency := JStr "KES";
     od_planId := JNull; od_planName := JNull; od_customerEmail := JStr "a@b.com";
     od_customerName := JNull; od_status := JStr status; od_createdAt := Some 1%Z;
     od_redirectUrl := JStr "https://pay.example/T-1";
     od_updatedAt := None; od_ipnReceivedAt := None |}.

Definition world_with_order (status : string) : world :=
  {| pesapalOrders := {[ "BRANDIFY-1-2" := sample_doc status ]}; payments := []; calls := [] |}.

Definition ipn_body (tid : string) (status : jsval) : list (string * jsval) :=
  [("order_tracking_id", JStr tid); ("payment_status", status)].

(** The status stored for document [id]. *)
Definition stored_status (w : world) (id : string) : option jsval :=
  od_status <$> pesapalOrders w !! id.

(** [n] deliveries of the same callback body, one after the other. *)
Fixpoint deliver_ipn (db : firestore) (n : nat) (now : Z) (body : list (string * jsval))
    (w : world) : world :=
  match n with
  | O => w
  | S k => deliver_ipn db k now body (snd (pesapal_ipn db now body w))
  end.

(** The number of payment records whose [orderId] is the string [oid]. *)
Definition payments_for (w : world) (oid : string) : nat :=
  length (List.filter (fun p => js_eq_str (pd_orderId p) oid) (payments w)).

(** The check at lines 587-592: [amount], [currency], [customerEmail]. *)
Definition required_present (body : list (string * jsval)) : bool :=
  truthy (field body "amount") && truthy (field body "currency") &&
  truthy (field body "customerEmail").

(** [customerName?.split] is callable. *)
Definition name_splittable (v : jsval) : bool :=
  match v with JUndef | JNull | JStr _ => true | _ => false end.

Definition is_token_call (c : call) : bool :=
  match c with CallRequestToken => true | _ => false end.

(** The number of authentication calls made so far. *)
Definition token_calls (w : world) : nat := length (List.filter is_token_call (calls w)).

(** The authentication call answers 2xx with a truthy token [tok]. *)
Definition auth_gives_token (gw : gateway) (tok : jsval) : Prop :=
  exists st txt j, gw_RequestToken gw = Http st txt (Ok j) /\ http_ok st = true /\
                   js_prop j "token" = Ok tok /\ truthy tok = true.

(** A gateway that rejects every submission and every status query with
    401. *)
Definition unauthorized_gateway : gateway :=
  {| gw_RequestToken := gw_RequestToken (sample_gateway "COMPLETED");
     gw_SubmitOrderRequest := fun _ _ => Http 401 "Unauthorized" (Thrown "Unexpected token");
     gw_GetTransactionStatus := fun _ _ => Http 401 "Unauthorized" (Thrown "Unexpected token") |}.

(** The document [create_pesapal_order] writes for [sample_order_request]
    at [Date.now() = 1], random suffix [2], given the redirect URL of
    [sample_gateway]. *)
Definition sample_pending_doc : order_doc :=
  {| od_orderId := "BRANDIFY-1-2"; od_amount := JNum 1000; od_currency := JStr "KES";
     od_planId := JNull; od_planName := JNull; od_customerEmail := JStr "a@b.com";
     od_customerName := JNull; od_status := JStr "PENDING"; od_createdAt := Some 1%Z;
     od_redirectUrl := JStr "https://pay.example/T-1";
     od_updatedAt := None; od_ipnReceivedAt := None |}.

(** The authentication succeeds with token [tok] and the submission of
    [od] with that token succeeds with the redirect URL [url]. *)
Definition create_steps_succeed (gw : gateway) (tok : jsval) (od : order_data) (url : jsval) : Prop :=
  (exists st txt j, gw_RequestToken gw = Http st txt (Ok j) /\ http_ok st = true /\
                    js_prop j "token" = Ok tok /\ truthy tok = true) /\
  (exists st txt j, gw_SubmitOrderRequest gw tok od = Http st txt (Ok j) /\ http_ok st = true /\
                    js_prop j "redirect_url" = Ok url /\ truthy url = true).

Definition create_failure (e : string) : response :=
  RespJson 500 [("message", JStr "Failed to create PesaPal order"); ("error", JStr e)].

Definition missing_fields_response : response :=
  RespJson 400 [("message", JStr "Missing required fields");
                ("required", JArr [JStr "amount"; JStr "currency"; JStr "customerEmail"])].

(** The two writes of a COMPLETED callback for the stored order [d] at
    [pesapalOrders/id]: the update of its status and the payment record. *)
Definition ipn_update_write (id : string) (status : jsval) (now : Z) : fs_write :=
  {| fw_op := FsUpdate; fw_path := "pesapalOrders/" ++ id;
     fw_data := [("status", status); ("ipnReceivedAt", JNum now)]; fw_exists := true |}.

Definition ipn_payment_write (d : order_doc) (now : Z) (tid : jsval) : fs_write :=
  {| fw_op := FsAdd; fw_path := "payments"; fw_data := payment_doc_data (ipn_payment d now tid);
     fw_exists := false |}.

(** The database accepts every write without [undefined]. *)
Definition accepts_defined (db : firestore) : Prop :=
  forall fw, fdoc_ok (fw_data fw) = true -> fs_refuse db fw = None.

(** [n] steps of each of [k] handlers, in turns. *)
Definition round_robin (k n : nat) : list nat := concat (repeat (seq 0 k) n).

Definition two_orders : list pesapal_request :=
  [ReqCreate (sample_gateway "COMPLETED") 1 2 sample_order_request;
   ReqCreate (sample_gateway "COMPLETED") 1 3 sample_order_request].

(** An order creation and a status poll for an order created earlier. *)
Definition create_and_poll : list pesapal_request :=
  [ReqCreate (sample_gateway "COMPLETED") 1 2 sample_order_request;
   ReqStatus (sample_gateway "COMPLETED") 1 (JStr "BRANDIFY-0-7")].

(** The request passes the handler's own check ([amount], [currency],
    [customerEmail] for a creation, [orderId] for a poll). *)
Definition passes_checks (r : pesapal_request) : bool :=
  match r with
  | ReqCreate _ _ _ body => required_present body
  | ReqStatus _ _ orderId => truthy orderId
  end.

(** How many authentication calls the handler [m] still makes, whatever the
    world and the other handlers do between its steps. *)
Inductive owes {A} : nat -> RM A -> Prop :=
| owes_done (r : result A) : owes 0 (RDone r)
| owes_step (n : nat) (eff : world -> world) (next : world -> RM A) (k : world -> nat) :
    (forall w, k w <= n) ->
    (forall w, token_calls (eff w) = token_calls w + (n - k w)) ->
    (forall w, owes (k w) (next w)) ->
    owes n (RStep eff next).

(** Induction on JSON values, through the elements of arrays and the
    fields of objects. *)
Fixpoint jsval_deep_ind (P : jsval -> Prop)
    (fU : P JUndef) (fN : P JNull) (fB : forall b, P (JBool b)) (fZ : forall z, P (JNum z))
    (fS : forall s, P (JStr s)) (fA : forall xs, Forall P xs -> P (JArr xs))
    (fO : forall fs, Forall (fun kv => P (snd kv)) fs -> P (JObj fs)) (v : jsval) : P v :=
  match v with
  | JUndef => fU
  | JNull => fN
  | JBool b => fB b
  | JNum z => fZ z
  | JStr s => fS s
  | JArr xs =>
      fA xs ((fix go (xs : list jsval) : Forall P xs :=
                match xs with
                | [] => @List.Forall_nil _ P
                | x :: rest =>
                    @List.Forall_cons _ P x rest (jsval_deep_ind P fU fN fB fZ fS fA fO x) (go rest)
                end) xs)
  | JObj fs =>
      fO fs ((fix go (fs : list (string * jsval)) : Forall (fun kv => P (snd kv)) fs :=
                match fs with
                | [] => @List.Forall_nil _ _
                | kv :: rest =>
                    @List.Forall_cons _ (fun kv => P (snd kv)) kv rest
                      (jsval_deep_ind P fU fN fB fZ fS fA fO (snd kv)) (go rest)
                end) fs)
  end.

(** The conversion of an array element by [Array.prototype.join]. *)
Definition js_elem_tostring (x : jsval) : result string :=
  match x with JUndef | JNull => Ok "" | _ => js_tostring x end.

(** ** The PayPal routes, the developer routes and the request pipeline

    The routes of lines 838-1012 and the middleware around them (CORS at
    lines 462-488, [express.json()] at line 461, the error handler and the
    404 handler at lines 1014-1021).  Their state is an [app_world]: the
    [world] of the PesaPal routes, the documents of the [paypalOrders],
    [developerTags] and [users] collections keyed by (collection, document
    path), the documents the PayPal capture adds to the [payments]
    collection, the uids of Firebase Auth and the trace of the calls made
    to PayPal and to Firebase Auth.  PayPal and Firebase Auth are oracles
    like the PesaPal gateway.  The logging middleware of lines 937-944 only
    logs and is left out. *)

(** [amount.toString()] (line 850): [undefined] and [null] have no
    properties; an object's own [toString], a JSON value, is not a
    function; other values convert as [ToString] does. *)
Definition to_string_method (v : jsval) : result string :=
  match v with
  | JUndef | JNull =>
      Thrown ("Cannot read properties of " ++ js_to_string v ++ " (reading 'toString')")
  | JObj fs =>
      if own_toString fs then Thrown "amount.toString is not a function"
      else Ok "[object Object]"
  | _ => js_tostring v
  end.

(** [v[i]] *)
Definition js_at (v : jsval) (i : nat) : result jsval :=
  match v with
  | JArr xs => Ok (match nth_error xs i with Some x => x | None => JUndef end)
  | JStr s =>
      Ok (match String.get i s with Some c => JStr (String c EmptyString) | None => JUndef end)
  | _ => js_prop v (pretty (N.of_nat i))
  end.

(** [d.k] for [d = (await ref.get()).data()], [undefined] for a missing
    document. *)
Definition data_prop (d : option fdoc) (k : string) : result jsval :=
  match d with
  | None => Thrown ("Cannot read properties of undefined (reading '" ++ k ++ "')")
  | Some fs => Ok (field fs k)
  end.

(** An outbound call to PayPal or to Firebase Auth. *)
Inductive app_call :=
| CallPayPalCreate (body : jsval)
| CallPayPalCapture (orderID : jsval)
| CallCreateUser (uid : string)
| CallCreateCustomToken (uid : jsval).

(** [paypalClient.execute(request)] rejects or resolves to a response
    whose [result] is given. *)
Inductive pp_outcome :=
| PPRejected (msg : string)
| PPResult (result : jsval).

Record paypal_api := {
  pp_create : jsval -> pp_outcome;
  pp_capture : jsval -> pp_outcome
}.

(** [admin.auth()]: [createUser] (besides the refusal of a uid already in
    use: [None] accepts, [Some msg] rejects) and [createCustomToken]. *)
Record admin_auth := {
  au_createUser : string -> option string;
  au_createCustomToken : jsval -> result string
}.

Record services := {
  sv_gateway : gateway;
  sv_paypal : paypal_api;
  sv_auth : admin_auth;
  sv_firestore : firestore
}.

Record app_world := {
  pesapal : world;
  docs : gmap (string * string) fdoc;
  paypalPayments : list fdoc;
  authUsers : list string;
  app_calls : list app_call
}.

Definition set_pesapal (w : world) (aw : app_world) : app_world :=
  {| pesapal := w; docs := docs aw; paypalPayments := paypalPayments aw;
     authUsers := authUsers aw; app_calls := app_calls aw |}.

Definition set_docs (m : gmap (string * string) fdoc) (aw : app_world) : app_world :=
  {| pesapal := pesapal aw; docs := m; paypalPayments := paypalPayments aw;
     authUsers := authUsers aw; app_calls := app_calls aw |}.

Definition set_paypalPayments (ps : list fdoc) (aw : app_world) : app_world :=
  {| pesapal := pesapal aw; docs := docs aw; paypalPayments := ps;
     authUsers := authUsers aw; app_calls := app_calls aw |}.

Definition set_authUsers (us : list string) (aw : app_world) : app_world :=
  {| pesapal := pesapal aw; docs := docs aw; paypalPayments := paypalPayments aw;
     authUsers := us; app_calls := app_calls aw |}.

Definition set_app_calls (cs : list app_call) (aw : app_world) : app_world :=
  {| pesapal := pesapal aw; docs := docs aw; paypalPayments := paypalPayments aw;
     authUsers := authUsers aw; app_calls := cs |}.

(** The state and exception monad over [app_world]. *)
Definition AM (A : Type) := app_world -> result A * app_world.

Definition retA {A} (a : A) : AM A := fun aw => (Ok a, aw).

Definition throwA {A} (msg : string) : AM A := fun aw => (Thrown msg, aw).

Definition bindA {A B} (m : AM A) (k : A -> AM B) : AM B :=
  fun aw =>
    match m aw with
    | (Ok a, aw') => k a aw'
    | (Thrown e, aw') => (Thrown e, aw')
    end.

Definition catchA {A} (m : AM A) (h : string -> AM A) : AM A :=
  fun aw =>
    match m aw with
    | (Ok a, aw') => (Ok a, aw')
    | (Thrown e, aw') => h e aw'
    end.

Notation "'awaitA' x <- c ; k" := (bindA c (fun x => k))
  (at level 200, x name, c at level 100, k at level 200).
Notation "'doA' c ; k" := (bindA c (fun _ => k))
  (at level 200, c at level 100, k at level 200).

(** A synchronous step that may throw. *)
Definition liftR {A} (r : result A) : AM A := fun aw => (r, aw).

(** A PesaPal route run on the [world] part. *)
Definition pesapalA {A} (m : M A) : AM A :=
  fun aw => let '(r, w') := m (pesapal aw) in (r, set_pesapal w' aw).

Definition log_app_call (c : app_call) : AM unit :=
  fun aw => (Ok tt, set_app_calls (app_calls aw ++ [c]) aw).

(** [await paypalClient.execute(request)] *)
Definition pp_execute (c : app_call) (o : pp_outcome) : AM jsval :=
  doA log_app_call c;
  match o with
  | PPRejected msg => throwA msg
  | PPResult v => retA v
  end.

(** [await admin.auth().createUser({ uid })]: a uid already in use is
    refused. *)
Definition auth_create_user (au : admin_auth) (uid : string) : AM unit :=
  doA log_app_call (CallCreateUser uid);
  fun aw =>
    if existsb (String.eqb uid) (authUsers aw)
    then (Thrown "The user with the provided uid already exists.", aw)
    else match au_createUser au uid with
         | Some msg => (Thrown msg, aw)
         | None => (Ok tt, set_authUsers (authUsers aw ++ [uid]) aw)
         end.

(** [await admin.auth().createCustomToken(uid)] *)
Definition auth_custom_token (au : admin_auth) (uid : jsval) : AM string :=
  doA log_app_call (CallCreateCustomToken uid);
  liftR (au_createCustomToken au uid).

(** [ref.set(d)] on [col/id]: the document is replaced. *)
Definition doc_set (db : firestore) (col id : string) (d : fdoc) : AM unit :=
  fun aw =>
    match fs_refuse db {| fw_op := FsSet; fw_path := col ++ "/" ++ id; fw_data := d;
                          fw_exists := is_stored (docs aw !! (col, id)) |} with
    | Some msg => (Thrown msg, aw)
    | None => (Ok tt, set_docs (<[(col, id) := d]> (docs aw)) aw)
    end.

Definition doc_get (col id : string) : AM (option fdoc) :=
  fun aw => (Ok (docs aw !! (col, id)), aw).

(** The field [k] of [d] set to [v]: replaced in place, or added last. *)
Fixpoint set_field (k : string) (v : jsval) (d : fdoc) : fdoc :=
  match d with
  | [] => [(k, v)]
  | (k', v') :: rest =>
      if String.eqb k' k then (k, v) :: rest else (k', v') :: set_field k v rest
  end.

(** [ref.update(u)] on [col/id]: Firestore's verdict first, then
    NOT_FOUND on a missing document. *)
Definition doc_update (db : firestore) (col id : string) (u : fdoc) : AM unit :=
  fun aw =>
    let path := col ++ "/" ++ id in
    match fs_refuse db {| fw_op := FsUpdate; fw_path := path; fw_data := u;
                          fw_exists := is_stored (docs aw !! (col, id)) |} with
    | Some msg => (Thrown msg, aw)
    | None =>
        match docs aw !! (col, id) with
        | None => (Thrown (not_found db path), aw)
        | Some d =>
            (Ok tt, set_docs (<[(col, id) := fold_left (fun d kv => set_field (fst kv) (snd kv) d) u d]>
                               (docs aw)) aw)
        end
    end.

(** [db.collection('payments').add(d)] *)
Definition payments_add (db : firestore) (d : fdoc) : AM unit :=
  fun aw =>
    match fs_refuse db {| fw_op := FsAdd; fw_path := "payments"; fw_data := d;
                          fw_exists := false |} with
    | Some msg => (Thrown msg, aw)
    | None => (Ok tt, set_paypalPayments (paypalPayments aw ++ [d]) aw)
    end.

(** A write batch: the documents to set, with the writes as Firestore
    checks them at the commit. *)
Definition batch := list ((string * string) * fdoc * fs_write).

(** [batch.set(ref, d)] on [col/id]: the client's checks now, the rest at
    the commit. *)
Definition batch_set (db : firestore) (b : batch) (col id : string) (d : fdoc) : AM batch :=
  fun aw =>
    let fw := {| fw_op := FsBatchSet; fw_path := col ++ "/" ++ id; fw_data := d;
                 fw_exists := is_stored (docs aw !! (col, id)) |} in
    match fs_refuse db fw with
    | Some msg => (Thrown msg, aw)
    | None => (Ok (b ++ [((col, id), d, fw)])%list, aw)
    end.

(** [await batch.commit()]: all the writes, or none. *)
Definition batch_commit (db : firestore) (b : batch) : AM unit :=
  fun aw =>
    match fs_refuse_commit db (map snd b) with
    | Some msg => (Thrown msg, aw)
    | None =>
        (Ok tt, set_docs (fold_left (fun m kd => <[fst (fst kd) := snd (fst kd)]> m) b (docs aw)) aw)
    end.

(** The body of the [OrdersCreateRequest] (lines 845-861); [value] is
    [amount.toString()] and [label] is [planName] converted by the
    template literal. *)
Definition paypal_order_request (value label : string) (currency planId : jsval) : jsval :=
  JObj [("intent", JStr "CAPTURE");
        ("purchase_units",
          JArr [JObj [("amount", JObj [("currency_code", currency); ("value", JStr value)]);
                      ("description", JStr (label ++ " Plan Subscription"));
                      ("custom_id", planId)]]);
        ("application_context",
          JObj [("brand_name", JStr "Brandify"); ("user_action", JStr "PAY_NOW");
                ("return_url", JStr "https://brandifyblog.web.app/paypal-success");
                ("cancel_url", JStr "https://brandifyblog.web.app/paypal-cancel")])].

(** [POST /api/create-paypal-order] (lines 839-886).  [now] is the time
    the server timestamp stands for. *)
Definition create_paypal_order (db : firestore) (pp : paypal_api) (now : Z)
    (body : list (string * jsval)) : AM response :=
  let amount := field body "amount" in
  let currency := field body "currency" in
  let planId := field body "planId" in
  let planName := field body "planName" in
  catchA
    (awaitA value <- liftR (to_string_method amount);
     awaitA label <- liftR (js_tostring planName);
     let request := paypal_order_request value label currency planId in
     awaitA order <- pp_execute (CallPayPalCreate request) (pp_create pp request);
     awaitA idv <- liftR (js_prop order "id");
     awaitA id <- liftR (doc_path idv);
     awaitA orderIdv <- liftR (js_prop order "id");
     doA doc_set db "paypalOrders" id
           [("orderId", orderIdv); ("amount", amount); ("currency", currency);
            ("planId", planId); ("planName", planName); ("status", JStr "CREATED");
            ("createdAt", JNum now); ("paypalData", order)];
     awaitA orderID <- liftR (js_prop order "id");
     retA (RespJson 200 [("orderID", orderID)]))
    (fun e => retA (RespJson 500 [("message", JStr "Failed to create PayPal order");
                                  ("error", JStr e)])).

Definition bindR {A B} (r : result A) (k : A -> result B) : result B :=
  match r with Ok a => k a | Thrown e => Thrown e end.

(** [capture.result.purchase_units[0].payments.captures[0].id] *)
Definition capture_id (capture : jsval) : result jsval :=
  bindR (js_prop capture "purchase_units") (fun units =>
  bindR (js_at units 0) (fun unit0 =>
  bindR (js_prop unit0 "payments") (fun pays =>
  bindR (js_prop pays "captures") (fun caps =>
  bindR (js_at caps 0) (fun cap0 =>
  js_prop cap0 "id"))))).

(** [FieldValue.serverTimestamp()] as [res.json] writes it: the sentinel
    object has no own enumerable property. *)
Definition server_timestamp_json : jsval := JObj [].

(** [POST /api/capture-paypal-order] (lines 889-935).  The constructor of
    [OrdersCaptureRequest] puts [querystring.escape(orderID)] in the
    request path, which converts [orderID] with [ToString].  The payment
    record is written with the server timestamp ([now]) and sent back with
    the placeholder. *)
Definition capture_paypal_order (db : firestore) (pp : paypal_api) (now : Z)
    (body : list (string * jsval)) : AM response :=
  let orderID := field body "orderID" in
  catchA
    (doA liftR (js_tostring orderID);
     awaitA capture <- pp_execute (CallPayPalCapture orderID) (pp_capture pp orderID);
     awaitA id <- liftR (doc_path orderID);
     awaitA orderData <- doc_get "paypalOrders" id;
     doA doc_update db "paypalOrders" id
           [("status", JStr "COMPLETED"); ("capturedAt", JNum now); ("captureData", capture)];
     awaitA payer <- liftR (js_prop capture "payer");
     awaitA email <- liftR (js_prop payer "email_address");
     awaitA planId <- liftR (data_prop orderData "planId");
     awaitA planName <- liftR (data_prop orderData "planName");
     awaitA amount <- liftR (data_prop orderData "amount");
     awaitA currency <- liftR (data_prop orderData "currency");
     awaitA transactionId <- liftR (capture_id capture);
     let paymentData createdAt :=
       [("userId", JStr ""); ("email", email); ("planId", planId); ("planName", planName);
        ("amount", amount); ("currency", currency); ("paymentMethod", JStr "paypal");
        ("createdAt", createdAt); ("status", JStr "completed"); ("orderId", orderID);
        ("transactionId", transactionId)] in
     doA payments_add db (paymentData (JNum now));
     retA (RespJson 200 [("success", JBool true);
                         ("paymentData", JObj (paymentData server_timestamp_json))]))
    (fun e => retA (RespJson 500 [("message", JStr "Failed to capture PayPal payment");
                                  ("error", JStr e)])).

(** [POST /index] (lines 950-992); [now] is [Date.now()] and the time the
    server timestamps stand for. *)
Definition register_developer (db : firestore) (au : admin_auth) (now : Z)
    (body : list (string * jsval)) : AM response :=
  let tag := field body "tag" in
  let managerEmail := field body "managerEmail" in
  if negb (truthy tag) then retA (RespJson 400 [("error", JStr "Missing tag parameter")])
  else
  let uid := "dev-" ++ Z_to_string now in
  catchA
    (doA auth_create_user au uid;
     awaitA customToken <- auth_custom_token au (JStr uid);
     let tagDoc :=
       [("tag", tag); ("assignedTo", JStr uid);
        ("createdBy", js_or managerEmail (JStr "system@admin"));
        ("createdAt", JNum now); ("isActive", JBool true); ("customToken", JStr customToken)] in
     let userDoc :=
       [("name", JStr "Developer"); ("tag", tag); ("createdAt", JNum now);
        ("isManager", JBool false)] in
     awaitA tagRef <- liftR (doc_path tag);
     awaitA userRef <- liftR (doc_path (JStr uid));
     awaitA b1 <- batch_set db [] "developerTags" tagRef tagDoc;
     awaitA b2 <- batch_set db b1 "users" userRef userDoc;
     doA batch_commit db b2;
     retA (RespJson 200 [("success", JBool true); ("uid", JStr uid); ("tag", tag);
                         ("customToken", JStr customToken)]))
    (fun e => retA (RespJson 500 [("error", JStr e)])).

(** [POST /getCustomToken] (lines 995-1009). *)
Definition get_custom_token (au : admin_auth) (body : list (string * jsval)) : AM response :=
  let uid := field body "uid" in
  if negb (truthy uid) then retA (RespJson 400 [("error", JStr "UID required")])
  else
  catchA
    (awaitA customToken <- auth_custom_token au uid;
     retA (RespJson 200 [("token", JStr customToken)]))
    (fun _ => retA (RespJson 500 [("error", JStr "Failed to generate custom token")])).

(** ** The request pipeline *)

Definition allowedOrigins : list string :=
  ["https://brandifyblog.web.app"; "https://brand-backend-y2fk.onrender.com";
   "http://localhost:3000"].

(** The [origin] option of [corsOptions] (lines 469-479): [Ok] for
    [callback(null, true)], [Thrown] for [callback(new Error(...))]. *)
Definition cors_origin (origin : option string) : result bool :=
  match origin with
  | None => Ok true
  | Some o =>
      if String.eqb o "" then Ok true
      else if existsb (String.eqb o) allowedOrigins then Ok true
      else Thrown "Not allowed by CORS"
  end.

(** The request body as [express.json()] leaves it: the parsed fields, or
    the parse error of a malformed JSON body. *)
Inductive body_parse :=
| BodyJson (fields : list (string * jsval))
| BodyMalformed (msg : string).

Record request := {
  rq_method : string;
  rq_path : string;
  rq_origin : option string;
  rq_body : body_parse;
  rq_query : list (string * jsval)
}.

Definition lower_ascii (c : ascii) : ascii :=
  let n := Ascii.nat_of_ascii c in
  if (65 <=? n)%nat && (n <=? 90)%nat then Ascii.ascii_of_nat (n + 32)%nat else c.

Fixpoint lower (s : string) : string :=
  match s with
  | EmptyString => EmptyString
  | String c rest => String (lower_ascii c) (lower rest)
  end.

(** Express's route matching: case-insensitive, a trailing slash allowed. *)
Definition route_is (path route : string) : bool :=
  String.eqb (lower path) (lower route) || String.eqb (lower path) (lower route ++ "/").

(** [app.post(route, ...)] and [app.get(route, ...)] (which also serves
    HEAD). *)
Definition is_post (rq : request) (route : string) : bool :=
  String.eqb (rq_method rq) "POST" && route_is (rq_path rq) route.

Definition is_get (rq : request) (route : string) : bool :=
  (String.eqb (rq_method rq) "GET" || String.eqb (rq_method rq) "HEAD") &&
  route_is (rq_path rq) route.

(** The error handler (lines 1014-1017). *)
Definition error_response (msg : string) : response := RespJson 500 [("error", JStr msg)].

(** The 404 handler (lines 1019-1021). *)
Definition not_found_response : response := RespJson 404 [("error", JStr "Route not found")].

(** The whole pipeline of the later revision for one request:
    [express.json()], then [cors(corsOptions)] (which answers every
    preflight OPTIONS request with 204 itself), then the routes in their
    order, then the 404 handler; an error passed on by a middleware goes
    to the error handler.  A route handler that throws ([Thrown]) rejects
    its promise, which Express 4 does not catch: no response is sent. *)
Definition serve (sv : services) (E : pesapal_env) (now rnd : Z) (rq : request)
    : AM response :=
  let db := sv_firestore sv in
  match rq_body rq with
  | BodyMalformed msg => retA (error_response msg)
  | BodyJson body =>
      match cors_origin (rq_origin rq) with
      | Thrown msg => retA (error_response msg)
      | Ok _ =>
          if String.eqb (rq_method rq) "OPTIONS" then retA (RespText 204 "")
          else if is_post rq "/api/create-pesapal-order" then
            pesapalA (create_pesapal_order E db (sv_gateway sv) now rnd body)
          else if is_get rq "/api/pesapal-payment-status" then
            pesapalA (pesapal_payment_status E db (sv_gateway sv) now (field (rq_query rq) "orderId"))
          else if is_post rq "/api/pesapal-ipn" then pesapalA (pesapal_ipn db now body)
          else if is_post rq "/api/create-paypal-order" then
            create_paypal_order db (sv_paypal sv) now body
          else if is_post rq "/api/capture-paypal-order" then
            capture_paypal_order db (sv_paypal sv) now body
          else if is_post rq "/index" then register_developer db (sv_auth sv) now body
          else if is_post rq "/getCustomToken" then get_custom_token (sv_auth sv) body
          else retA not_found_response
      end
  end.

(** [s] contains a slash. *)
Fixpoint has_slash (s : string) : bool :=
  match s with
  | EmptyString => false
  | String c rest => Ascii.eqb c "/"%char || has_slash rest
  end.

(** [s] contains a space. *)
Fixpoint has_space (s : string) : bool :=
  match s with
  | EmptyString => false
  | String c rest => Ascii.eqb c " "%char || has_space rest
  end.


(** ** Sample services and worlds *)

(** A capture response with a payer e-mail and one capture ["CAP1"]. *)
Definition sample_capture : jsval :=
  JObj [("id", JStr "PP1"); ("status", JStr "COMPLETED");
        ("payer", JObj [("email_address", JStr "x@y.com")]);
        ("purchase_units",
          JArr [JObj [("payments", JObj [("captures", JArr [JObj [("id", JStr "CAP1")]])])]])].

(** A PayPal client that creates order ["PP1"] and captures with [c]. *)
Definition paypal_capturing (c : jsval) : paypal_api :=
  {| pp_create := fun _ => PPResult (JObj [("id", JStr "PP1"); ("status", JStr "CREATED")]);
     pp_capture := fun _ => PPResult c |}.

Definition sample_paypal : paypal_api := paypal_capturing sample_capture.

(** A PayPal client whose every call is rejected. *)
Definition rejecting_paypal : paypal_api :=
  {| pp_create := fun _ => PPRejected "INVALID_REQUEST";
     pp_capture := fun _ => PPRejected "UNPROCESSABLE_ENTITY" |}.

(** An Admin SDK that creates every user and signs every uid. *)
Definition sample_auth : admin_auth :=
  {| au_createUser := fun _ => None;
     au_createCustomToken := fun u => Ok ("tok-" ++ js_to_string u) |}.

(** An Admin SDK that creates every user but fails to sign. *)
Definition unsigning_auth : admin_auth :=
  {| au_createUser := fun _ => None;
     au_createCustomToken := fun _ => Thrown "Failed to sign" |}.

Definition sample_services : services :=
  {| sv_gateway := sample_gateway "COMPLETED"; sv_paypal := sample_paypal;
     sv_auth := sample_auth; sv_firestore := sample_db |}.

Definition empty_app_world : app_world :=
  {| pesapal := empty_world; docs := ∅; paypalPayments := []; authUsers := [];
     app_calls := [] |}.


(** The order document [create_paypal_order] stores for [paypal_body] at
    [Date.now() = 7] with [sample_paypal]. *)
Definition sample_paypal_order : fdoc :=
  [("orderId", JStr "PP1"); ("amount", JNum 10); ("currency", JStr "USD");
   ("planId", JStr "p1"); ("planName", JStr "Pro"); ("status", JStr "CREATED");
   ("createdAt", JNum 7); ("paypalData", JObj [("id", JStr "PP1"); ("status", JStr "CREATED")])].

Definition world_with_paypal_order : app_world :=
  set_docs {[ ("paypalOrders", "PP1") := sample_paypal_order ]} empty_app_world.

Definition sample_request (meth path : string) (origin : option string) (body : body_parse)
    : request :=
  {| rq_method := meth; rq_path := path; rq_origin := origin; rq_body := body; rq_query := [] |}.

(** [m] leaves the part [f] of the world unchanged. *)
Definition keeps {X A} (f : app_world -> X) (m : AM A) : Prop :=
  forall aw, f (snd (m aw)) = f aw.

(** [sample_order_request] with a [customerName]. *)
Definition named_order_request (name : jsval) : list (string * jsval) :=
  (sample_order_request ++ [("customerName", name)])%list.

(** A capture response whose payer has no e-mail address. *)
Definition capture_without_payer_email : jsval :=
  JObj [("id", JStr "PP1"); ("status", JStr "COMPLETED"); ("payer", JObj [])].


(** An object whose own toString is not a function. *)
Definition bad_tostring_value : jsval := JObj [("toString", JNum 1)].

(** ** Proofs *)

(** Case analysis on every [match] of a handler run held in [H]; the
    JavaScript conversions and tests stay folded. *)
Ltac split_run H :=
  repeat (cbn -[truthy js_or js_tostring name_part doc_path http_ok js_prop field
                Z_to_string js_stringify credentials_set String.append] in H;
          match type of H with
          | context [match ?x with _ => _ end] =>
              lazymatch x with
              | context [match _ with _ => _ end] => fail
              | _ => destruct x eqn:?
              end
          end).

(** The same on the goal. *)
Ltac split_goal :=
  repeat (cbn -[truthy js_or js_tostring name_part doc_path http_ok js_prop field
                Z_to_string js_stringify credentials_set String.append];
          match goal with
          | |- context [match ?x with _ => _ end] =>
              lazymatch x with
              | context [match _ with _ => _ end] => fail
              | _ => destruct x eqn:?
              end
          end).

Ltac unfold_pesapal :=
  unfold create_pesapal_order, pesapal_payment_status, pesapal_ipn, catchM, bindM, fetchM,
    log_call, retM, throwM, jsonM, js_get, liftM, fs_set_merge, fs_update, fs_get,
    fs_add_payment, getPesaPalAuthHeader.

Ltac unfold_pesapal_in H :=
  unfold create_pesapal_order, pesapal_payment_status, pesapal_ipn, catchM, bindM, fetchM,
    log_call, retM, throwM, jsonM, js_get, liftM, fs_set_merge, fs_update, fs_get,
    fs_add_payment, getPesaPalAuthHeader in H.

Ltac negb_hyps :=
  repeat match goal with
         | H : negb _ = true |- _ => apply negb_true_iff in H
         | H : negb _ = false |- _ => apply negb_false_iff in H
         end.

(** C9: a create-order request whose [amount], [currency] or
    [customerEmail] is missing (falsy) is answered 400 "Missing required
    fields" with the world unchanged: no gateway call, no write. *)
Theorem create_missing_field_rejected (E : pesapal_env) (db : firestore) (gw : gateway)
    (now rnd : Z) (body : list (string * jsval)) (w : world) :
  truthy (field body "amount") = false \/ truthy (field body "currency") = false \/
  truthy (field body "customerEmail") = false ->
  create_pesapal_order E db gw now rnd body w = (Ok missing_fields_response, w).
Proof.
  intros H. unfold create_pesapal_order, catchM.
  destruct H as [H | [H | H]]; rewrite H;
    [| destruct (truthy (field body "amount")) | destruct (truthy (field body "amount")), (truthy (field body "currency"))];
    reflexivity.
Qed.

Lemma create_missing_field_rejected_witness :
  truthy (field [] "amount") = false /\
  create_pesapal_order sample_env sample_db (sample_gateway "COMPLETED") 1 2 [] empty_world =
    (Ok missing_fields_response, empty_world).
Proof.
  split; [reflexivity |].
  apply (create_missing_field_rejected sample_env sample_db (sample_gateway "COMPLETED") 1 2 []
           empty_world).
  left; reflexivity.
Defined.

(** C10: once the required fields are present, an order creation either
    fails with the 500 "Failed to create PesaPal order" response and
    leaves both collections untouched, or it made exactly the
    authentication call and the submission of the order data [od] it
    built, the authentication returned a truthy token and that submission
    a truthy [redirect_url], and the response is the 200 success.  So an
    authentication failure, a missing token, a failed submission or a
    missing [redirect_url] each give a 500 and write no document. *)
Theorem create_order_failure_writes_nothing (E : pesapal_env) (db : firestore) (gw : gateway)
    (now rnd : Z) (body : list (string * jsval)) (w w' : world) (res : result response) :
  truthy (field body "amount") = true ->
  truthy (field body "currency") = true ->
  truthy (field body "customerEmail") = true ->
  create_pesapal_order E db gw now rnd body w = (res, w') ->
  (exists e, res = Ok (create_failure e) /\
             pesapalOrders w' = pesapalOrders w /\ payments w' = payments w) \/
  (exists tok od url,
     calls w' = (calls w ++ [CallRequestToken; CallSubmitOrder tok od])%list /\
     create_steps_succeed gw tok od url /\
     res = Ok (RespJson 200 [("iframeUrl", url); ("orderId", JStr (odt_id od));
                             ("message", JStr "PesaPal order created successfully")])).
Proof.
  intros Ha Hc He H.
  unfold_pesapal_in H.
  rewrite Ha, Hc, He in H.
  split_run H.
  all: simplify_eq/=.
  all: try (left; eexists; split; [reflexivity | split; reflexivity]).
  all: negb_hyps.
  all: right; do 3 eexists; split; [rewrite <- app_assoc; reflexivity |]; split;
    [split; do 3 eexists; (split; [eassumption |]); repeat split; eassumption
    | reflexivity].
Qed.

Lemma create_order_failure_writes_nothing_witness :
  let gw := gateway_with_submit (Http 401 "Unauthorized" (Thrown "Unexpected token")) in
  let run := create_pesapal_order sample_env sample_db gw 1 2 sample_order_request empty_world in
  (exists e, fst run = Ok (create_failure e) /\
             pesapalOrders (snd run) = pesapalOrders empty_world /\
             payments (snd run) = payments empty_world) \/
  (exists tok od url,
     calls (snd run) = (calls empty_world ++ [CallRequestToken; CallSubmitOrder tok od])%list /\
     create_steps_succeed gw tok od url /\
     fst run = Ok (RespJson 200 [("iframeUrl", url); ("orderId", JStr (odt_id od));
                                 ("message", JStr "PesaPal order created successfully")])).
Proof.
  intros gw run.
  apply (create_order_failure_writes_nothing sample_env sample_db gw 1 2 sample_order_request
           empty_world (snd run) (fst run)); reflexivity.
Defined.

(** C7: when this request's submission (the call it traced after the
    authentication) answers with a 2xx status and a JSON body whose
    [redirect_url] is missing or falsy, the handler answers 500 with the
    error "PesaPal did not return a redirect URL" and writes nothing; no
    success response carries an absent redirect URL. *)
Theorem create_missing_redirect_is_server_error (E : pesapal_env) (db : firestore)
    (gw : gateway) (now rnd : Z) (body : list (string * jsval)) (w w' : world)
    (res : result response) (tok : jsval) (od : order_data) (st : Z) (txt : string)
    (j u : jsval) :
  create_pesapal_order E db gw now rnd body w = (res, w') ->
  calls w' = (calls w ++ [CallRequestToken; CallSubmitOrder tok od])%list ->
  gw_SubmitOrderRequest gw tok od = Http st txt (Ok j) ->
  http_ok st = true ->
  js_prop j "redirect_url" = Ok u ->
  truthy u = false ->
  res = Ok (create_failure "PesaPal did not return a redirect URL") /\
  pesapalOrders w' = pesapalOrders w /\ payments w' = payments w.
Proof.
  intros H Hcalls Hsub Hok Hj Hu.
  unfold_pesapal_in H.
  split_run H.
  all: simplify_eq/=.
  all: rewrite ?app_nil_r, <- ?app_assoc in Hcalls; cbn in Hcalls.
  all: try (apply (f_equal (@length call)) in Hcalls;
             rewrite ?length_app in Hcalls; cbn in Hcalls; lia).
  all: try (apply app_inv_head in Hcalls; simplify_eq).
  all: try (split; [reflexivity | split; reflexivity]).
  all: negb_hyps.
  all: rewrite Hsub in *; simplify_eq; congruence.
Qed.

Lemma create_missing_redirect_is_server_error_witness :
  let gw := gateway_with_submit (Http 200 "" (Ok (JObj [("order_tracking_id", JStr "T-1")]))) in
  let run := create_pesapal_order sample_env sample_db gw 1 2 sample_order_request empty_world in
  fst run = Ok (create_failure "PesaPal did not return a redirect URL") /\
  pesapalOrders (snd run) = pesapalOrders empty_world /\
  payments (snd run) = payments empty_world.
Proof.
  intros gw run.
  apply (create_missing_redirect_is_server_error sample_env sample_db gw 1 2 sample_order_request
           empty_world (snd run) (fst run) (JStr "tok") sample_order_data 200 ""
           (JObj [("order_tracking_id", JStr "T-1")]) JUndef); reflexivity.
Defined.

Lemma js_tostring_arr_cons (x : jsval) (l : list jsval) :
  js_tostring (JArr (x :: l)) =
    match l with
    | [] => js_elem_tostring x
    | _ :: _ =>
        match js_elem_tostring x with
        | Ok s => match js_tostring (JArr l) with Ok t => Ok (s ++ "," ++ t) | Thrown e => Thrown e end
        | Thrown e => Thrown e
        end
    end.
Proof. destruct l; reflexivity. Qed.

Lemma js_tostring_thrown (v : jsval) (e : string) :
  js_tostring v = Thrown e -> e = "Cannot convert object to primitive value".
Proof.
  revert e. induction v as [| | b | z | s | xs IH | fs _] using jsval_deep_ind; intros e H.
  all: try (destruct b); try discriminate.
  - assert (Helem : Forall (fun x => forall e, js_elem_tostring x = Thrown e ->
                                          e = "Cannot convert object to primitive value") xs).
    { eapply Forall_impl; [exact IH |]. intros x Hx e0 H0. destruct x; try discriminate; apply Hx; exact H0. }
    clear IH. revert e H. induction Helem as [| x l Hx Hl IHl]; intros e H; [discriminate |].
    rewrite js_tostring_arr_cons in H.
    destruct l as [| y ys]; [exact (Hx e H) |].
    destruct (js_elem_tostring x) eqn:Ex; [| injection H as <-; exact (Hx _ eq_refl)].
    destruct (js_tostring (JArr (y :: ys))) eqn:Ej; [discriminate |].
    injection H as <-. exact (IHl _ eq_refl).
  - cbn in H. destruct (own_toString fs); congruence.
Qed.

Lemma stringifiable_false (v : jsval) :
  stringifiable v = false -> js_tostring v = Thrown "Cannot convert object to primitive value".
Proof.
  unfold stringifiable. destruct (js_tostring v) as [s | e] eqn:H; [discriminate |].
  intros _. rewrite (js_tostring_thrown v e H). reflexivity.
Qed.

Lemma stringifiable_true (v : jsval) :
  stringifiable v = true -> exists s, js_tostring v = Ok s.
Proof.
  unfold stringifiable. destruct (js_tostring v) as [s | e]; [eauto | discriminate].
Qed.

(** C5 (corrected): a callback whose [order_tracking_id] names no stored
    order is answered with the generic 500 "Error processing IPN" (the
    answer to any other failure of the handler, not a not-found answer)
    when both fields convert to strings; when one of them does not, the
    log line before the [try] throws and no answer is sent.  Either way
    the world is left exactly as it was: no order is created, no status
    and no payment is written. *)
Theorem ipn_unknown_tracking_id (db : firestore) (now : Z) (body : list (string * jsval))
    (w : world) :
  (forall id, doc_path (field body "order_tracking_id") = Ok id -> pesapalOrders w !! id = None) ->
  pesapal_ipn db now body w =
    (if stringifiable (field body "order_tracking_id") &&
        stringifiable (field body "payment_status")
     then Ok (RespText 500 "Error processing IPN")
     else Thrown "Cannot convert object to primitive value", w).
Proof.
  intros Hnone.
  unfold_pesapal.
  destruct (stringifiable (field body "order_tracking_id")) eqn:Ht.
  2: { rewrite (stringifiable_false _ Ht). reflexivity. }
  destruct (stringifiable_true _ Ht) as [s1 Hs1]. rewrite Hs1. cbn.
  destruct (stringifiable (field body "payment_status")) eqn:Hp.
  2: { rewrite (stringifiable_false _ Hp). reflexivity. }
  destruct (stringifiable_true _ Hp) as [s2 Hs2]. rewrite Hs2. cbn.
  destruct (doc_path (field body "order_tracking_id")) as [id | e] eqn:Hd; [| reflexivity].
  rewrite (Hnone id eq_refl).
  destruct (fs_refuse db _); reflexivity.
Qed.

Lemma ipn_unknown_tracking_id_witness :
  pesapal_ipn sample_db 5 [("order_tracking_id", JStr "T-1"); ("payment_status", JStr "COMPLETED")]
    empty_world = (Ok (RespText 500 "Error processing IPN"), empty_world).
Proof.
  apply (ipn_unknown_tracking_id sample_db 5
           [("order_tracking_id", JStr "T-1"); ("payment_status", JStr "COMPLETED")] empty_world).
  intros id _. reflexivity.
Defined.

(** C5: the answer to a callback for an unknown tracking id is a 500, not
    a not-found (404) answer; with an [order_tracking_id] that cannot be
    converted to a string there is no answer at all. *)
Lemma ipn_unknown_tracking_id_not_404 :
  let r := pesapal_ipn sample_db 5
             [("order_tracking_id", JStr "T-1"); ("payment_status", JStr "COMPLETED")] empty_world in
  let r' := pesapal_ipn sample_db 5
              [("order_tracking_id", JObj [("toString", JNum 1)]);
               ("payment_status", JStr "COMPLETED")] empty_world in
  fst r = Ok (RespText 500 "Error processing IPN") /\
  resp_status (RespText 500 "Error processing IPN") <> 404%Z /\
  resp_status_of (fst r') = None.
Proof.
  intros r r'; split; [vm_compute; reflexivity | split; [cbn; lia | vm_compute; reflexivity]].
Qed.

(** An IPN for a stored order, whose update Firestore accepts (and, for
    COMPLETED, the payment record too), answers 200 and stores the status
    it carries, whatever the stored status was. *)
Lemma ipn_sets_status (db : firestore) (now : Z) (tid id : string) (v : jsval) (w : world)
    (d : order_doc) :
  doc_path (JStr tid) = Ok id ->
  pesapalOrders w !! id = Some d ->
  stringifiable v = true ->
  fs_refuse db (ipn_update_write id v now) = None ->
  (js_eq_str v "COMPLETED" = true -> fs_refuse db (ipn_payment_write d now (JStr tid)) = None) ->
  exists w', pesapal_ipn db now (ipn_body tid v) w = (Ok (RespText 200 "OK"), w') /\
             stored_status w' id = Some v.
Proof.
  intros Hid Hd Hv Hu Hp.
  destruct (stringifiable_true _ Hv) as [s Hs].
  unfold ipn_update_write, ipn_payment_write, payment_doc_data, ipn_payment in *.
  destruct (pesapal_ipn db now (ipn_body tid v) w) as [r w'] eqn:H.
  exists w'. unfold_pesapal_in H.
  change (field (ipn_body tid v) "order_tracking_id") with (JStr tid) in H.
  change (field (ipn_body tid v) "payment_status") with v in H.
  split_run H.
  all: rewrite ?lookup_insert_eq in *; simplify_eq.
  all: rewrite ?Hd in *; cbn [is_stored] in *.
  all: try congruence.
  all: try (specialize (Hp eq_refl); unfold payment_doc_data, ipn_payment in *; cbn in *; congruence).
  all: unfold stored_status; cbn; rewrite lookup_insert_eq; auto.
Qed.

(** A poll answered 200 with a truthy [status] has stored that status,
    whatever the stored status was. *)
Lemma poll_sets_status (E : pesapal_env) (db : firestore) (gw : gateway) (now : Z)
    (oid id : string) (v : jsval) (rest : list (string * jsval)) (w w' : world) :
  doc_path (JStr oid) = Ok id ->
  pesapal_payment_status E db gw now (JStr oid) w = (Ok (RespJson 200 (("status", v) :: rest)), w') ->
  truthy v = true -> stored_status w' id = Some v.
Proof.
  intros Hid H Hv.
  unfold_pesapal_in H.
  split_run H.
  all: simplify_eq.
  all: try congruence.
  all: unfold stored_status; cbn; rewrite lookup_insert_eq; reflexivity.
Qed.

(** C1 (corrected): neither the IPN handler nor the status poll reads the
    stored status before writing.  An IPN for a stored order whose writes
    Firestore accepts is answered 200 and stores exactly the status it
    carries, and a poll answered 200 with a truthy status has stored
    exactly that value, whether the stored status was terminal or not.
    Replaying the same value leaves the status as it is; a different
    value replaces it. *)
Theorem status_update_ignores_stored_status :
  (forall (db : firestore) (now : Z) (tid id : string) (v : jsval) (w : world) (d : order_doc),
     doc_path (JStr tid) = Ok id ->
     pesapalOrders w !! id = Some d ->
     stringifiable v = true ->
     fs_refuse db (ipn_update_write id v now) = None ->
     (js_eq_str v "COMPLETED" = true -> fs_refuse db (ipn_payment_write d now (JStr tid)) = None) ->
     exists w', pesapal_ipn db now (ipn_body tid v) w = (Ok (RespText 200 "OK"), w') /\
                stored_status w' id = Some v) /\
  (forall (E : pesapal_env) (db : firestore) (gw : gateway) (now : Z) (oid id : string)
          (v : jsval) (rest : list (string * jsval)) (w w' : world),
     doc_path (JStr oid) = Ok id ->
     pesapal_payment_status E db gw now (JStr oid) w =
       (Ok (RespJson 200 (("status", v) :: rest)), w') ->
     truthy v = true -> stored_status w' id = Some v).
Proof.
  split; [exact ipn_sets_status | exact poll_sets_status].
Qed.

Lemma status_update_ignores_stored_status_witness :
  (exists w', pesapal_ipn sample_db 5 (ipn_body "BRANDIFY-1-2" (JStr "FAILED"))
                (world_with_order "COMPLETED") = (Ok (RespText 200 "OK"), w') /\
              stored_status w' "BRANDIFY-1-2" = Some (JStr "FAILED")) /\
  stored_status (snd (pesapal_payment_status sample_env sample_db (sample_gateway "FAILED") 5
                        (JStr "BRANDIFY-1-2") (world_with_order "COMPLETED")))
    "BRANDIFY-1-2" = Some (JStr "FAILED").
Proof.
  split.
  - apply (proj1 status_update_ignores_stored_status sample_db 5%Z "BRANDIFY-1-2" "BRANDIFY-1-2"
             (JStr "FAILED") (world_with_order "COMPLETED") (sample_doc "COMPLETED"));
      try reflexivity; discriminate.
  - apply (proj2 status_update_ignores_stored_status sample_env sample_db (sample_gateway "FAILED")
             5%Z "BRANDIFY-1-2" "BRANDIFY-1-2" (JStr "FAILED")
             [("details", JObj [("payment_status", JStr "FAILED")])]
             (world_with_order "COMPLETED")); reflexivity.
Defined.

(** C1: a stored COMPLETED order is moved to FAILED by an IPN, and also by
    a poll, each answered with success: the conflicting value is applied,
    not rejected. *)
Lemma terminal_status_overwritten :
  let r := pesapal_ipn sample_db 5 (ipn_body "BRANDIFY-1-2" (JStr "FAILED"))
             (world_with_order "COMPLETED") in
  let p := pesapal_payment_status sample_env sample_db (sample_gateway "FAILED") 5
             (JStr "BRANDIFY-1-2") (world_with_order "COMPLETED") in
  stored_status (world_with_order "COMPLETED") "BRANDIFY-1-2" = Some (JStr "COMPLETED") /\
  fst r = Ok (RespText 200 "OK") /\
  stored_status (snd r) "BRANDIFY-1-2" = Some (JStr "FAILED") /\
  resp_status_of (fst p) = Some 200%Z /\
  stored_status (snd p) "BRANDIFY-1-2" = Some (JStr "FAILED").
Proof.
  intros r p. vm_compute. repeat split.
Qed.

(** One COMPLETED callback for a stored order, whose writes Firestore
    accepts, keeps the order stored and appends the payment record built
    from it. *)
Lemma ipn_completed_adds_payment (db : firestore) (now : Z) (tid id : string) (w : world)
    (d : order_doc) :
  doc_path (JStr tid) = Ok id ->
  pesapalOrders w !! id = Some d ->
  fs_refuse db (ipn_update_write id (JStr "COMPLETED") now) = None ->
  fs_refuse db (ipn_payment_write d now (JStr tid)) = None ->
  exists d',
    pesapal_ipn db now (ipn_body tid (JStr "COMPLETED")) w =
      (Ok (RespText 200 "OK"),
       {| pesapalOrders := <[id := d']> (pesapalOrders w);
          payments := (payments w ++ [ipn_payment d now (JStr tid)])%list;
          calls := calls w |}) /\
    ipn_payment d' now (JStr tid) = ipn_payment d now (JStr tid).
Proof.
  intros Hid Hd Hu Hp.
  unfold ipn_update_write, ipn_payment_write in *.
  unfold_pesapal. unfold ipn_body.
  change (field [("order_tracking_id", JStr tid); ("payment_status", JStr "COMPLETED")]
            "order_tracking_id") with (JStr tid).
  change (field [("order_tracking_id", JStr tid); ("payment_status", JStr "COMPLETED")]
            "payment_status") with (JStr "COMPLETED").
  change (js_tostring (JStr tid)) with (@Ok string tid).
  cbn -[doc_path String.append payment_doc_data ipn_payment]. rewrite Hid.
  cbn -[doc_path String.append payment_doc_data ipn_payment]. rewrite Hd.
  cbn -[doc_path String.append payment_doc_data ipn_payment]. rewrite Hu.
  cbn -[doc_path String.append payment_doc_data ipn_payment]. rewrite lookup_insert_eq.
  cbn -[doc_path String.append payment_doc_data ipn_payment].
  change (ipn_payment {| od_orderId := _ |} now (JStr tid)) with (ipn_payment d now (JStr tid)).
  rewrite Hp.
  eexists; split; reflexivity.
Qed.

Lemma payments_for_snoc (w : world) (oid : string) (ps : list payment_doc) (p : payment_doc) :
  payments w = (ps ++ [p])%list -> pd_orderId p = JStr oid ->
  length (List.filter (fun q => js_eq_str (pd_orderId q) oid) ps) + 1 = payments_for w oid.
Proof.
  intros Hw Hp. unfold payments_for. rewrite Hw, List.filter_app. cbn.
  rewrite Hp. cbn. rewrite String.eqb_refl, length_app. reflexivity.
Qed.

(** C2 (corrected): every COMPLETED callback for a stored order adds one
    payment record for it; [n] deliveries of the same callback add [n]
    records. *)
Theorem completed_ipn_adds_payment_each_time (db : firestore) (n : nat) (now : Z)
    (tid id : string) (w : world) (d : order_doc) :
  doc_path (JStr tid) = Ok id ->
  pesapalOrders w !! id = Some d ->
  fs_refuse db (ipn_update_write id (JStr "COMPLETED") now) = None ->
  fs_refuse db (ipn_payment_write d now (JStr tid)) = None ->
  payments_for (deliver_ipn db n now (ipn_body tid (JStr "COMPLETED")) w) tid =
    payments_for w tid + n.
Proof.
  intros Hid. revert w d. induction n as [| n IH]; intros w d Hd Hu Hp.
  - cbn. lia.
  - cbn [deliver_ipn].
    destruct (ipn_completed_adds_payment db now tid id w d Hid Hd Hu Hp) as (d' & Hrun & Hpd).
    rewrite Hrun. cbn [snd].
    rewrite (IH _ d') by (cbn; rewrite ?lookup_insert_eq; unfold ipn_payment_write in *;
                          rewrite ?Hpd; auto).
    rewrite <- (payments_for_snoc
                  {| pesapalOrders := <[id := d']> (pesapalOrders w);
                     payments := (payments w ++ [ipn_payment d now (JStr tid)])%list;
                     calls := calls w |}
                  tid (payments w) _ eq_refl eq_refl).
    unfold payments_for. lia.
Qed.

Lemma completed_ipn_adds_payment_each_time_witness :
  payments_for (deliver_ipn sample_db 5 7 (ipn_body "BRANDIFY-1-2" (JStr "COMPLETED"))
                  (world_with_order "PENDING")) "BRANDIFY-1-2" = 0 + 5.
Proof.
  apply (completed_ipn_adds_payment_each_time sample_db 5 7 "BRANDIFY-1-2" "BRANDIFY-1-2"
           (world_with_order "PENDING") (sample_doc "PENDING")); reflexivity.
Defined.

(** C2: two deliveries of the same COMPLETED callback leave two payment
    records for the order, not one. *)
Lemma duplicate_completed_ipn_two_payments :
  payments_for (deliver_ipn sample_db 2 7 (ipn_body "BRANDIFY-1-2" (JStr "COMPLETED"))
                  (world_with_order "PENDING")) "BRANDIFY-1-2" = 2.
Proof. vm_compute. reflexivity. Qed.

(** With the credentials set, an order creation with the required fields
    starts with its own authentication call and makes no other. *)
Lemma create_authenticates_once (E : pesapal_env) (db : firestore) (gw : gateway) (now rnd : Z)
    (body : list (string * jsval)) (w w' : world) (res : result response) :
  credentials_set E = true ->
  required_present body = true ->
  create_pesapal_order E db gw now rnd body w = (res, w') ->
  exists cs, calls w' = (calls w ++ CallRequestToken :: cs)%list /\
             forallb (fun c => negb (is_token_call c)) cs = true.
Proof.
  intros Hcred Hreq H.
  unfold required_present in Hreq.
  apply andb_prop in Hreq as [Hreq He]. apply andb_prop in Hreq as [Ha Hc].
  unfold_pesapal_in H.
  rewrite Ha, Hc, He, Hcred in H.
  split_run H.
  all: simplify_eq/=.
  all: eexists; split; [rewrite <- ?app_assoc; reflexivity | reflexivity].
Qed.

(** With the credentials set, a status poll with an [orderId] starts with
    its own authentication call and makes no other. *)
Lemma poll_authenticates_once (E : pesapal_env) (db : firestore) (gw : gateway) (now : Z)
    (oid : jsval) (w w' : world) (res : result response) :
  credentials_set E = true ->
  truthy oid = true ->
  pesapal_payment_status E db gw now oid w = (res, w') ->
  exists cs, calls w' = (calls w ++ CallRequestToken :: cs)%list /\
             forallb (fun c => negb (is_token_call c)) cs = true.
Proof.
  intros Hcred Hoid H.
  unfold_pesapal_in H.
  rewrite Hoid, Hcred in H.
  split_run H.
  all: simplify_eq/=.
  all: eexists; split; [rewrite <- ?app_assoc; reflexivity | reflexivity].
Qed.

(** C4 (corrected): there is no token cache.  With the PesaPal
    credentials configured, every order creation with the required fields
    and every status poll with an [orderId] starts with an authentication
    call of its own, whatever tokens earlier requests obtained. *)
Theorem every_request_authenticates :
  (forall (E : pesapal_env) (db : firestore) (gw : gateway) (now rnd : Z)
          (body : list (string * jsval)) (w w' : world) (res : result response),
     credentials_set E = true ->
     required_present body = true ->
     create_pesapal_order E db gw now rnd body w = (res, w') ->
     exists cs, calls w' = (calls w ++ CallRequestToken :: cs)%list) /\
  (forall (E : pesapal_env) (db : firestore) (gw : gateway) (now : Z) (oid : jsval)
          (w w' : world) (res : result response),
     credentials_set E = true ->
     truthy oid = true ->
     pesapal_payment_status E db gw now oid w = (res, w') ->
     exists cs, calls w' = (calls w ++ CallRequestToken :: cs)%list).
Proof.
  split.
  - intros E db gw now rnd body w w' res Hcred Hreq H.
    destruct (create_authenticates_once E db gw now rnd body w w' res Hcred Hreq H)
      as (cs & Hcs & _).
    eauto.
  - intros E db gw now oid w w' res Hcred Hoid H.
    destruct (poll_authenticates_once E db gw now oid w w' res Hcred Hoid H) as (cs & Hcs & _).
    eauto.
Qed.

Lemma every_request_authenticates_witness :
  let w1 := snd (create_pesapal_order sample_env sample_db (sample_gateway "COMPLETED") 1 2
                   sample_order_request empty_world) in
  exists cs, calls (snd (pesapal_payment_status sample_env sample_db (sample_gateway "COMPLETED") 1
                           (JStr "BRANDIFY-1-2") w1)) =
             (calls w1 ++ CallRequestToken :: cs)%list.
Proof.
  intros w1.
  apply (proj2 every_request_authenticates sample_env sample_db (sample_gateway "COMPLETED") 1%Z
           (JStr "BRANDIFY-1-2") w1 _
           (fst (pesapal_payment_status sample_env sample_db (sample_gateway "COMPLETED") 1
                   (JStr "BRANDIFY-1-2") w1))); reflexivity.
Defined.

(** C4: right after an order creation obtained token ["tok"] (at the same
    instant), a status poll authenticates again. *)
Lemma poll_after_create_authenticates_again :
  let r1 := create_pesapal_order sample_env sample_db (sample_gateway "COMPLETED") 1 2
              sample_order_request empty_world in
  let r2 := pesapal_payment_status sample_env sample_db (sample_gateway "COMPLETED") 1
              (JStr "BRANDIFY-1-2") (snd r1) in
  resp_status_of (fst r1) = Some 200%Z /\ token_calls (snd r1) = 1 /\
  resp_status_of (fst r2) = Some 200%Z /\ token_calls (snd r2) = 2.
Proof. intros r1 r2. vm_compute. repeat split. Qed.

Lemma create_401_not_retried (E : pesapal_env) (db : firestore) (gw : gateway) (now rnd : Z)
    (body : list (string * jsval)) (w w' : world) (res : result response)
    (tok : jsval) (txt : string) (js : result jsval) :
  credentials_set E = true ->
  required_present body = true ->
  stringifiable (js_or (field body "planName") (JStr "Plan")) = true ->
  name_splittable (field body "customerName") = true ->
  auth_gives_token gw tok ->
  stringifiable tok = true ->
  (forall t od, gw_SubmitOrderRequest gw t od = Http 401 txt js) ->
  create_pesapal_order E db gw now rnd body w = (res, w') ->
  exists od, res = Ok (create_failure ("PesaPal order submission failed: 401 - " ++ txt)) /\
             calls w' = (calls w ++ [CallRequestToken; CallSubmitOrder tok od])%list /\
             pesapalOrders w' = pesapalOrders w /\ payments w' = payments w.
Proof.
  intros Hcred Hreq Hplan Hname (st & atxt & j & Hauth & Hok & Htok & Htt) Htoks H401 H.
  unfold required_present in Hreq.
  apply andb_prop in Hreq as [Hreq He]. apply andb_prop in Hreq as [Ha Hc].
  destruct (stringifiable_true _ Hplan) as [plan Hpl].
  destruct (stringifiable_true _ Htoks) as [ts Hts].
  unfold_pesapal_in H.
  rewrite Ha, Hc, He, Hcred in H.
  split_run H.
  all: simplify_eq/=.
  all: negb_hyps; try congruence.
  all: try (destruct (field body "customerName"); discriminate).
  all: rewrite ?H401 in *; simplify_eq.
  all: rewrite Htok in *; simplify_eq.
  all: eexists; (split; [reflexivity |]); rewrite <- ?app_assoc; repeat split.
Qed.

Lemma poll_401_not_retried (E : pesapal_env) (db : firestore) (gw : gateway) (now : Z)
    (oid : jsval) (w w' : world) (res : result response) (tok : jsval) (txt : string)
    (js : result jsval) :
  credentials_set E = true ->
  truthy oid = true ->
  stringifiable oid = true ->
  auth_gives_token gw tok ->
  stringifiable tok = true ->
  (forall t id, gw_GetTransactionStatus gw t id = Http 401 txt js) ->
  pesapal_payment_status E db gw now oid w = (res, w') ->
  res = Ok (RespJson 500 [("message", JStr "Failed to check payment status");
                          ("error", JStr ("Status check failed: 401 - " ++ txt))]) /\
  calls w' = (calls w ++ [CallRequestToken; CallGetTransactionStatus tok (js_to_string oid)])%list /\
  pesapalOrders w' = pesapalOrders w /\ payments w' = payments w.
Proof.
  intros Hcred Hoid Hoids (st & atxt & j & Hauth & Hok & Htok & Htt) Htoks H401 H.
  destruct (stringifiable_true _ Hoids) as [os Hos].
  destruct (stringifiable_true _ Htoks) as [ts Hts].
  unfold js_to_string. rewrite Hos.
  unfold_pesapal_in H.
  rewrite Hoid, Hcred in H.
  split_run H.
  all: simplify_eq/=.
  all: negb_hyps; try congruence.
  all: rewrite ?H401 in *; simplify_eq.
  all: rewrite Htok in *; simplify_eq.
  all: rewrite <- ?app_assoc; repeat split.
Qed.

(** C8 (corrected): a 401 from the order submission or from the status
    query is handled like any other non-2xx status: it is not told apart
    from other rejections, the token is not refreshed and the call is not
    retried.  When the request gets as far as that call (credentials set,
    a token obtained, the values put in the request convertible to
    strings), the handler answers 500 with the generic error, after
    exactly one authentication call and one submission (resp. status)
    call. *)
Theorem unauthorized_not_retried :
  (forall (E : pesapal_env) (db : firestore) (gw : gateway) (now rnd : Z)
          (body : list (string * jsval)) (w w' : world) (res : result response)
          (tok : jsval) (txt : string) (js : result jsval),
     credentials_set E = true ->
     required_present body = true ->
     stringifiable (js_or (field body "planName") (JStr "Plan")) = true ->
     name_splittable (field body "customerName") = true ->
     auth_gives_token gw tok ->
     stringifiable tok = true ->
     (forall t od, gw_SubmitOrderRequest gw t od = Http 401 txt js) ->
     create_pesapal_order E db gw now rnd body w = (res, w') ->
     exists od, res = Ok (create_failure ("PesaPal order submission failed: 401 - " ++ txt)) /\
                calls w' = (calls w ++ [CallRequestToken; CallSubmitOrder tok od])%list /\
                pesapalOrders w' = pesapalOrders w /\ payments w' = payments w) /\
  (forall (E : pesapal_env) (db : firestore) (gw : gateway) (now : Z) (oid : jsval)
          (w w' : world) (res : result response) (tok : jsval) (txt : string)
          (js : result jsval),
     credentials_set E = true ->
     truthy oid = true ->
     stringifiable oid = true ->
     auth_gives_token gw tok ->
     stringifiable tok = true ->
     (forall t id, gw_GetTransactionStatus gw t id = Http 401 txt js) ->
     pesapal_payment_status E db gw now oid w = (res, w') ->
     res = Ok (RespJson 500 [("message", JStr "Failed to check payment status");
                             ("error", JStr ("Status check failed: 401 - " ++ txt))]) /\
     calls w' = (calls w ++ [CallRequestToken; CallGetTransactionStatus tok (js_to_string oid)])%list /\
     pesapalOrders w' = pesapalOrders w /\ payments w' = payments w).
Proof.
  split; [exact create_401_not_retried | exact poll_401_not_retried].
Qed.

Lemma unauthorized_not_retried_witness :
  let r := create_pesapal_order sample_env sample_db unauthorized_gateway 1 2 sample_order_request
             empty_world in
  exists od, fst r = Ok (create_failure "PesaPal order submission failed: 401 - Unauthorized") /\
             calls (snd r) = (calls empty_world ++ [CallRequestToken; CallSubmitOrder (JStr "tok") od])%list /\
             pesapalOrders (snd r) = pesapalOrders empty_world /\
             payments (snd r) = payments empty_world.
Proof.
  intros r.
  apply (proj1 unauthorized_not_retried sample_env sample_db unauthorized_gateway 1%Z 2%Z
           sample_order_request empty_world (snd r) (fst r) (JStr "tok") "Unauthorized"
           (Thrown "Unexpected token")); try reflexivity.
  exists 200%Z, "", (JObj [("token", JStr "tok")]). repeat split.
Defined.

(** C8: against a gateway that answers 401 to every submission, an order
    creation makes one authentication call and one submission, and
    answers 500: no refresh, no retry. *)
Lemma create_401_single_attempt :
  let r := create_pesapal_order sample_env sample_db unauthorized_gateway 1 2 sample_order_request
             empty_world in
  fst r = Ok (create_failure "PesaPal order submission failed: 401 - Unauthorized") /\
  calls (snd r) = [CallRequestToken; CallSubmitOrder (JStr "tok") sample_order_data].
Proof. intros r. vm_compute. split; reflexivity. Qed.

(** Use the acceptance [H] of the first write the goal submits. *)
Ltac fs_accept H :=
  match goal with
  | |- context [fs_refuse ?db ?fw] =>
      let Hw := fresh in
      assert (Hw : fs_refuse db fw = None) by exact H; rewrite Hw; clear Hw
  end.

(** C6 (corrected): the end-to-end scenario, with the credentials set.
    Creating the order (1000, "KES", "a@b.com") against a gateway that
    returns a token, the tracking id "T-1" and a redirect URL answers 200
    after one authentication call and one submission, and, when
    Firestore accepts the write, stores the single document
    [sample_pending_doc]: status PENDING, no tracking id, and no CREATED
    status at any point.  A poll for the created order's id that reports
    COMPLETED, whose update Firestore accepts, then stores COMPLETED. *)
Theorem end_to_end_create_then_poll (E : pesapal_env) (db : firestore) (t : Z) (w : world) :
  credentials_set E = true ->
  pesapalOrders w !! "BRANDIFY-1-2" = None ->
  fs_refuse db {| fw_op := FsSetMerge; fw_path := "pesapalOrders/BRANDIFY-1-2";
                  fw_data := order_doc_data sample_pending_doc; fw_exists := false |} = None ->
  fs_refuse db {| fw_op := FsUpdate; fw_path := "pesapalOrders/BRANDIFY-1-2";
                  fw_data := [("status", JStr "COMPLETED"); ("updatedAt", JNum t)];
                  fw_exists := true |} = None ->
  let r1 := create_pesapal_order E db (sample_gateway "COMPLETED") 1 2 sample_order_request w in
  let r2 := pesapal_payment_status E db (sample_gateway "COMPLETED") t (JStr "BRANDIFY-1-2")
              (snd r1) in
  resp_status_of (fst r1) = Some 200%Z /\
  (exists od, calls (snd r1) = (calls w ++ [CallRequestToken; CallSubmitOrder (JStr "tok") od])%list) /\
  pesapalOrders (snd r1) = <["BRANDIFY-1-2" := sample_pending_doc]> (pesapalOrders w) /\
  resp_status_of (fst r2) = Some 200%Z /\
  stored_status (snd r2) "BRANDIFY-1-2" = Some (JStr "COMPLETED").
Proof.
  intros Hcred Hnone Hset Hupd r1 r2. subst r1 r2.
  assert (Hdp : doc_path (JStr "BRANDIFY-1-2") = Ok "BRANDIFY-1-2") by reflexivity.
  unfold_pesapal. unfold stored_status.
  change ("BRANDIFY-" ++ Z_to_string 1 ++ "-" ++ Z_to_string 2) with "BRANDIFY-1-2".
  rewrite Hcred. cbn -[doc_path]. rewrite Hnone. cbn -[doc_path].
  fs_accept Hset. cbn -[doc_path].
  rewrite Hdp. cbn -[doc_path].
  rewrite lookup_insert_eq. cbn -[doc_path].
  fs_accept Hupd. cbn -[doc_path].
  rewrite lookup_insert_eq. cbn -[doc_path].
  repeat split. eexists. rewrite <- app_assoc. reflexivity.
Qed.

Lemma end_to_end_create_then_poll_witness :
  let r1 := create_pesapal_order sample_env sample_db (sample_gateway "COMPLETED") 1 2
              sample_order_request empty_world in
  let r2 := pesapal_payment_status sample_env sample_db (sample_gateway "COMPLETED") 3
              (JStr "BRANDIFY-1-2") (snd r1) in
  resp_status_of (fst r1) = Some 200%Z /\
  (exists od, calls (snd r1) = (calls empty_world ++ [CallRequestToken; CallSubmitOrder (JStr "tok") od])%list) /\
  pesapalOrders (snd r1) = <["BRANDIFY-1-2" := sample_pending_doc]> (pesapalOrders empty_world) /\
  resp_status_of (fst r2) = Some 200%Z /\
  stored_status (snd r2) "BRANDIFY-1-2" = Some (JStr "COMPLETED").
Proof.
  apply (end_to_end_create_then_poll sample_env sample_db 3 empty_world); reflexivity.
Defined.

(** C6: in the scenario the created order is stored as PENDING, never as
    CREATED, and after the poll reports COMPLETED no payment record exists
    for it. *)
Lemma end_to_end_no_created_no_payment :
  let r1 := create_pesapal_order sample_env sample_db (sample_gateway "COMPLETED") 1 2
              sample_order_request empty_world in
  let r2 := pesapal_payment_status sample_env sample_db (sample_gateway "COMPLETED") 3
              (JStr "BRANDIFY-1-2") (snd r1) in
  stored_status empty_world "BRANDIFY-1-2" = None /\
  stored_status (snd r1) "BRANDIFY-1-2" = Some (JStr "PENDING") /\
  stored_status (snd r2) "BRANDIFY-1-2" = Some (JStr "COMPLETED") /\
  payments_for (snd r2) "BRANDIFY-1-2" = 0.
Proof. intros r1 r2. vm_compute. repeat split. Qed.

(** ** Handlers in flight together *)

Lemma owes_rbind {A B} (n : nat) (m : RM A) (k : A -> RM B) :
  owes n m -> (forall a, owes 0 (k a)) -> owes n (rbind m k).
Proof.
  intros Hm Hk.
  induction Hm as [r | n eff next kk Hle Htc Hnext IH]; cbn.
  - destruct r; [apply Hk | constructor].
  - apply (owes_step n eff _ kk); auto.
Qed.

Lemma owes_rcatch {A} (n : nat) (m : RM A) (h : string -> RM A) :
  owes n m -> (forall e, owes 0 (h e)) -> owes n (rcatch m h).
Proof.
  intros Hm Hh.
  induction Hm as [r | n eff next kk Hle Htc Hnext IH]; cbn.
  - destruct r; [constructor | apply Hh].
  - apply (owes_step n eff _ kk); auto.
Qed.

Lemma owes_ratom0 {A} (m : M A) :
  (forall w, calls (snd (m w)) = calls w) -> owes 0 (ratom m).
Proof.
  intros H. apply (owes_step 0 _ _ (fun _ => 0)); intros w.
  - lia.
  - unfold token_calls. rewrite H. lia.
  - constructor.
Qed.

Lemma owes_rfetch (c : call) (r : fetch_result) :
  owes (if is_token_call c then 1 else 0) (rfetch c r).
Proof.
  apply (owes_step _ (fun w => snd (log_call c w)) _ (fun _ => 0)); intros w.
  - lia.
  - unfold token_calls, log_call. cbn. rewrite List.filter_app, List.length_app.
    destruct c; cbn; lia.
  - cbn. destruct r; constructor.
Qed.

Lemma jsonM_calls (js : result jsval) (w : world) : calls (snd (jsonM js w)) = calls w.
Proof. destruct js; reflexivity. Qed.

Lemma fs_set_merge_calls (db : firestore) (id : string) (d : order_doc) (w : world) :
  calls (snd (fs_set_merge db id d w)) = calls w.
Proof. unfold fs_set_merge. repeat case_match; reflexivity. Qed.

Lemma fs_update_calls (db : firestore) (id : string) (data : fdoc) (f : order_doc -> order_doc)
    (w : world) :
  calls (snd (fs_update db id data f w)) = calls w.
Proof. unfold fs_update. repeat case_match; reflexivity. Qed.

Ltac owes_zero :=
  repeat match goal with
  | |- owes 0 (RDone _) => apply owes_done
  | |- owes 0 (rret _) => apply owes_done
  | |- owes 0 (rlift _) => apply owes_done
  | |- owes 0 (rbind _ _) => apply owes_rbind; [| intros ?]
  | |- owes 0 (rcatch _ _) => apply owes_rcatch; [| intros ?]
  | |- owes 0 (ratom _) =>
      apply owes_ratom0; intros ?;
      first [apply jsonM_calls | apply fs_set_merge_calls | apply fs_update_calls]
  | |- owes 0 (rfetch ?c _) => exact (owes_rfetch c _)
  | |- owes 0 (match ?x with _ => _ end) => destruct x
  end.

(** With the credentials set, an order creation makes one authentication
    call if it passes the required-field check and none otherwise, however
    its steps are interleaved with other handlers. *)
Lemma create_steps_owes (E : pesapal_env) (db : firestore) (gw : gateway) (now rnd : Z)
    (body : list (string * jsval)) :
  credentials_set E = true ->
  owes (if required_present body then 1 else 0) (create_pesapal_order_steps E db gw now rnd body).
Proof.
  intros Hc. unfold create_pesapal_order_steps, required_present, getPesaPalAuthHeader.
  rewrite Hc.
  apply owes_rcatch; [| intros; apply owes_done].
  destruct (truthy (field body "amount")), (truthy (field body "currency")),
    (truthy (field body "customerEmail")); cbn [negb orb andb]; try apply owes_done.
  cbn [rlift rbind].
  apply owes_rbind; [exact (owes_rfetch CallRequestToken _) | intros [[st txt] js]].
  owes_zero.
Qed.

(** The same for a status poll and its [orderId] check. *)
Lemma poll_steps_owes (E : pesapal_env) (db : firestore) (gw : gateway) (now : Z) (oid : jsval) :
  credentials_set E = true ->
  owes (if truthy oid then 1 else 0) (pesapal_payment_status_steps E db gw now oid).
Proof.
  intros Hc. unfold pesapal_payment_status_steps, getPesaPalAuthHeader.
  rewrite Hc.
  apply owes_rcatch; [| intros; apply owes_done].
  destruct (truthy oid); cbn [negb]; [| apply owes_done].
  cbn [rlift rbind].
  apply owes_rbind; [exact (owes_rfetch CallRequestToken _) | intros [[st txt] js]].
  owes_zero.
Qed.

Lemma handler_owes (E : pesapal_env) (db : firestore) (r : pesapal_request) :
  credentials_set E = true ->
  owes (if passes_checks r then 1 else 0) (pesapal_handler E db r).
Proof.
  intros Hc. destruct r; cbn.
  - apply create_steps_owes; exact Hc.
  - apply poll_steps_owes; exact Hc.
Qed.

Lemma sum_list_insert (l : list nat) (i n x : nat) :
  l !! i = Some n -> sum_list (<[i := x]> l) + n = sum_list l + x.
Proof.
  revert i. induction l as [| y l IH]; intros [| i] Hi; simpl in *; simplify_eq; [lia |].
  specialize (IH i Hi). lia.
Qed.

(** The authentication calls still owed by the handlers in flight, plus
    those already made, stay constant along any schedule. *)
Lemma run_interleaved_owes {A} (sched : list nat) :
  forall (hs : list (RM A)) (ns : list nat) (w : world),
  Forall2 owes ns hs ->
  exists ns', Forall2 owes ns' (fst (run_interleaved sched hs w)) /\
              token_calls (snd (run_interleaved sched hs w)) + sum_list ns' =
              token_calls w + sum_list ns.
Proof.
  induction sched as [| i rest IH]; intros hs ns w Hf; cbn.
  - exists ns. split; [exact Hf | reflexivity].
  - destruct (hs !! i) as [[r | eff next] |] eqn:Hi; [eauto | | eauto].
    destruct (Forall2_lookup_r _ _ _ _ _ Hf Hi) as (n & Hn & Hown).
    inversion Hown as [| n' eff' next' kk Hle Htc Hnext]; subst.
    destruct (IH (<[i := next w]> hs) (<[i := kk w]> ns) (eff w)) as (ns' & Hf' & Hsum).
    { apply Forall2_insert; auto. }
    exists ns'. split; [exact Hf' |].
    pose proof (sum_list_insert ns i n (kk w) Hn).
    specialize (Htc w). specialize (Hle w). lia.
Qed.

Lemma owes_finished {A} (n : nat) (m : RM A) : owes n m -> finished m = true -> n = 0.
Proof. intros H Hf. destruct H; [reflexivity | discriminate]. Qed.

Lemma sum_list_finished {A} (ns : list nat) (hs : list (RM A)) :
  Forall2 owes ns hs -> forallb finished hs = true -> sum_list ns = 0.
Proof.
  induction 1 as [| n m ns hs Hnm _ IH]; cbn; [reflexivity |].
  intros Hb. apply andb_prop in Hb as [Hm Hrest].
  rewrite (owes_finished n m Hnm Hm), (IH Hrest). reflexivity.
Qed.

Lemma sum_list_checks (E : pesapal_env) (db : firestore) (reqs : list pesapal_request) :
  credentials_set E = true ->
  Forall2 owes (map (fun r => if passes_checks r then 1 else 0) reqs) (pesapal_handlers E db reqs) /\
  sum_list (map (fun r => if passes_checks r then 1 else 0) reqs) =
  length (List.filter passes_checks reqs).
Proof.
  intros Hc. induction reqs as [| r reqs [IH1 IH2]]; cbn; [split; constructor |].
  split.
  - constructor; [apply handler_owes; exact Hc | exact IH1].
  - rewrite IH2. destruct (passes_checks r); reflexivity.
Qed.

(** C3 (corrected): nothing is shared between the PesaPal handlers, and
    no token is cached.  With the credentials set, whatever requests are
    in flight together (order creations and status polls), and however
    their steps interleave, once they have all finished each request that
    passed its own field check has made exactly one authentication call of
    its own: N such requests make N authentication calls, not one. *)
Theorem concurrent_requests_each_authenticate (E : pesapal_env) (db : firestore)
    (reqs : list pesapal_request) (sched : list nat) (w : world) :
  credentials_set E = true ->
  forallb finished (fst (run_interleaved sched (pesapal_handlers E db reqs) w)) = true ->
  token_calls (snd (run_interleaved sched (pesapal_handlers E db reqs) w)) =
  token_calls w + length (List.filter passes_checks reqs).
Proof.
  intros Hc Hfin.
  destruct (sum_list_checks E db reqs Hc) as [Hf Hsum].
  destruct (run_interleaved_owes sched _ _ w Hf) as (ns' & Hf' & Heq).
  rewrite (sum_list_finished ns' _ Hf' Hfin) in Heq.
  lia.
Qed.

Lemma concurrent_requests_each_authenticate_witness :
  forallb finished (fst (run_interleaved (round_robin 2 8)
                           (pesapal_handlers sample_env sample_db create_and_poll) empty_world)) = true /\
  token_calls (snd (run_interleaved (round_robin 2 8)
                      (pesapal_handlers sample_env sample_db create_and_poll) empty_world)) =
  token_calls empty_world + length (List.filter passes_checks create_and_poll).
Proof.
  split; [vm_compute; reflexivity |].
  apply concurrent_requests_each_authenticate; [reflexivity | vm_compute; reflexivity].
Defined.

(** C3: two order creations in flight together.  After one step each,
    both are waiting for the gateway and two authentication calls have
    been sent, one per request: the second did not wait for the first.
    Run to the end, both answer 200 after two authentication calls. *)
Lemma two_creates_two_token_calls :
  let r1 := run_interleaved [0; 1] (pesapal_handlers sample_env sample_db two_orders) empty_world in
  let r2 := run_interleaved (round_robin 2 6) (pesapal_handlers sample_env sample_db two_orders)
              empty_world in
  map finished (fst r1) = [false; false] /\
  calls (snd r1) = [CallRequestToken; CallRequestToken] /\
  map (fun h => match h with RDone r => resp_status_of r | RStep _ _ => None end) (fst r2) =
    [Some 200%Z; Some 200%Z] /\
  token_calls (snd r2) = 2.
Proof. intros r1 r2. vm_compute. repeat split. Qed.

(** Run alone, the creation handler cut at its [await]s behaves as
    [create_pesapal_order]. *)
Lemma run_steps_rbind {A B} (m : RM A) (k : A -> RM B) (w : world) :
  run_steps (rbind m k) w = bindM (run_steps m) (fun a => run_steps (k a)) w.
Proof.
  revert w. induction m as [r | eff next IH]; intros w; cbn.
  - destruct r; reflexivity.
  - unfold bindM in *. apply IH.
Qed.

Lemma run_steps_rcatch {A} (m : RM A) (h : string -> RM A) (w : world) :
  run_steps (rcatch m h) w = catchM (run_steps m) (fun e => run_steps (h e)) w.
Proof.
  revert w. induction m as [r | eff next IH]; intros w; cbn.
  - destruct r; reflexivity.
  - unfold catchM in *. apply IH.
Qed.

Lemma run_steps_ratom {A} (m : M A) (w : world) : run_steps (ratom m) w = m w.
Proof. cbn. destruct (m w); reflexivity. Qed.

Lemma run_steps_rfetch (c : call) (r : fetch_result) (w : world) :
  run_steps (rfetch c r) w = fetchM c r w.
Proof. destruct r; reflexivity. Qed.

Lemma bindM_ext {A B} (m1 m2 : M A) (k1 k2 : A -> M B) (w : world) :
  (forall w, m1 w = m2 w) -> (forall a w, k1 a w = k2 a w) -> bindM m1 k1 w = bindM m2 k2 w.
Proof. intros Hm Hk. unfold bindM. rewrite Hm. destruct (m2 w) as [[a | e] w']; auto. Qed.

Lemma catchM_ext {A} (m1 m2 : M A) (h1 h2 : string -> M A) (w : world) :
  (forall w, m1 w = m2 w) -> (forall e w, h1 e w = h2 e w) -> catchM m1 h1 w = catchM m2 h2 w.
Proof. intros Hm Hh. unfold catchM. rewrite Hm. destruct (m2 w) as [[a | e] w']; auto. Qed.

Ltac steps_eq :=
  repeat (cbv beta;
    first
    [ reflexivity
    | rewrite run_steps_rcatch; apply catchM_ext; [intros ? | intros ? ?]
    | rewrite run_steps_rbind; apply bindM_ext; [intros ? | intros ? ?]
    | rewrite run_steps_ratom; reflexivity
    | rewrite run_steps_rfetch; reflexivity
    | match goal with
      | |- run_steps (match ?x with _ => _ end) _ = _ => destruct x
      end ]).

(** Run alone, the creation handler cut at its [await]s computes what
    [create_pesapal_order] computes. *)
Lemma run_create_pesapal_order_steps (E : pesapal_env) (db : firestore) (gw : gateway)
    (now rnd : Z) (body : list (string * jsval)) (w : world) :
  run_steps (create_pesapal_order_steps E db gw now rnd body) w =
  create_pesapal_order E db gw now rnd body w.
Proof. unfold create_pesapal_order_steps, create_pesapal_order. steps_eq. Qed.

(** The same for the status poll. *)
Lemma run_pesapal_payment_status_steps (E : pesapal_env) (db : firestore) (gw : gateway)
    (now : Z) (oid : jsval) (w : world) :
  run_steps (pesapal_payment_status_steps E db gw now oid) w =
  pesapal_payment_status E db gw now oid w.
Proof. unfold pesapal_payment_status_steps, pesapal_payment_status. steps_eq. Qed.

(** X1: The PesaPal IPN handler makes no gateway call, never creates or
    deletes an order document, changes no order document other than the
    one its [order_tracking_id] resolves to as a Firestore document path,
    and either leaves the payment records unchanged or, only when
    payment_status is exactly "COMPLETED", appends exactly one payment
    record whose orderId is that tracking id. *)
Theorem ipn_scope (db : firestore) (now : Z) (body : list (string * jsval)) (w w' : world)
    (r : result response) :
  pesapal_ipn db now body w = (r, w') ->
  calls w' = calls w /\ dom (pesapalOrders w') = dom (pesapalOrders w) /\
  (forall id, doc_path (field body "order_tracking_id") <> Ok id ->
              pesapalOrders w' !! id = pesapalOrders w !! id) /\
  (payments w' = payments w \/
   (js_eq_str (field body "payment_status") "COMPLETED" = true /\
    exists p, payments w' = (payments w ++ [p])%list /\
              pd_orderId p = field body "order_tracking_id")).
Proof.
  intros H.
  unfold_pesapal_in H.
  split_run H.
  all: simplify_eq/=.
  all: (split; [reflexivity |]).
  all: try (split; [reflexivity | split; [reflexivity | left; reflexivity]]).
  all: (split; [apply dom_insert_lookup_L; eexists; eassumption |]).
  all: (split; [intros id' Hid; rewrite lookup_insert_ne; congruence |]).
  all: try (left; reflexivity).
  all: right; split; [first [reflexivity | assumption] | eexists; split; reflexivity].
Qed.

Lemma ipn_scope_witness :
  let w0 := world_with_order "PENDING" in
  let body := ipn_body "BRANDIFY-1-2" (JStr "COMPLETED") in
  let run := pesapal_ipn sample_db 5 body w0 in
  calls (snd run) = calls w0 /\ dom (pesapalOrders (snd run)) = dom (pesapalOrders w0) /\
  (forall id, doc_path (field body "order_tracking_id") <> Ok id ->
              pesapalOrders (snd run) !! id = pesapalOrders w0 !! id) /\
  (payments (snd run) = payments w0 \/
   (js_eq_str (field body "payment_status") "COMPLETED" = true /\
    exists p, payments (snd run) = (payments w0 ++ [p])%list /\
              pd_orderId p = field body "order_tracking_id")).
Proof.
  intros w0 body run. apply (ipn_scope sample_db 5 body w0 (snd run) (fst run)). reflexivity.
Defined.

(** X2: An IPN whose body has no payment_status changes nothing: the
    update with status undefined is refused, and the handler answers 500
    "Error processing IPN", unless the order_tracking_id cannot be
    converted to a string, in which case the log line before the [try]
    throws and no response is sent. *)
Theorem ipn_missing_status (db : firestore) (now : Z) (body : list (string * jsval)) (w : world) :
  field body "payment_status" = JUndef ->
  pesapal_ipn db now body w =
    (if stringifiable (field body "order_tracking_id")
     then Ok (RespText 500 "Error processing IPN")
     else Thrown "Cannot convert object to primitive value", w).
Proof.
  intros H.
  destruct (stringifiable (field body "order_tracking_id")) eqn:Hs.
  - destruct (stringifiable_true _ Hs) as [s Hts].
    unfold_pesapal. rewrite H, Hts. cbn -[doc_path].
    destruct (doc_path (field body "order_tracking_id")) as [id | e]; [| reflexivity].
    cbn -[doc_path].
    match goal with
    | |- context [fs_refuse db ?fw] => destruct (fs_refuse db fw) eqn:Hr
    end; [reflexivity |].
    exfalso. eapply fs_refuse_undefined; [| exact Hr]. reflexivity.
  - unfold_pesapal. rewrite (stringifiable_false _ Hs). reflexivity.
Qed.

Lemma ipn_missing_status_witness :
  field [("order_tracking_id", JStr "BRANDIFY-1-2")] "payment_status" = JUndef /\
  pesapal_ipn sample_db 5 [("order_tracking_id", JStr "BRANDIFY-1-2")] (world_with_order "PENDING") =
    (Ok (RespText 500 "Error processing IPN"), world_with_order "PENDING").
Proof.
  split; [reflexivity |]. apply (ipn_missing_status sample_db 5). reflexivity.
Defined.

(** X3: The payment-status poll never adds a payment record, never
    creates or deletes an order document, and changes no order document
    other than the one its orderId resolves to as a Firestore document
    path. *)
Theorem poll_scope (E : pesapal_env) (db : firestore) (gw : gateway) (now : Z) (oid : jsval)
    (w w' : world) (r : result response) :
  pesapal_payment_status E db gw now oid w = (r, w') ->
  payments w' = payments w /\ dom (pesapalOrders w') = dom (pesapalOrders w) /\
  (forall id, doc_path oid <> Ok id -> pesapalOrders w' !! id = pesapalOrders w !! id).
Proof.
  intros H.
  unfold_pesapal_in H.
  split_run H.
  all: simplify_eq/=.
  all: (split; [reflexivity |]).
  all: try (split; [reflexivity | intros; reflexivity]).
  all: (split; [apply dom_insert_lookup_L; eexists; eassumption |]).
  all: intros id' Hid; rewrite lookup_insert_ne; congruence.
Qed.

Lemma poll_scope_witness :
  let w0 := world_with_order "PENDING" in
  let run := pesapal_payment_status sample_env sample_db (sample_gateway "COMPLETED") 5
               (JStr "BRANDIFY-1-2") w0 in
  payments (snd run) = payments w0 /\ dom (pesapalOrders (snd run)) = dom (pesapalOrders w0) /\
  (forall id, doc_path (JStr "BRANDIFY-1-2") <> Ok id ->
              pesapalOrders (snd run) !! id = pesapalOrders w0 !! id).
Proof.
  intros w0 run.
  apply (poll_scope sample_env sample_db (sample_gateway "COMPLETED") 5 (JStr "BRANDIFY-1-2") w0
           (snd run) (fst run)).
  reflexivity.
Defined.

(** X4: The payment-status poll makes no gateway call, only the
    authentication call, or the authentication call followed by one status
    query sent with the token from the authentication answer and with the
    caller's orderId (as a string) as the tracking id. *)
Theorem poll_calls (E : pesapal_env) (db : firestore) (gw : gateway) (now : Z) (oid : jsval)
    (w w' : world) (r : result response) :
  pesapal_payment_status E db gw now oid w = (r, w') ->
  calls w' = calls w \/ calls w' = (calls w ++ [CallRequestToken])%list \/
  exists st txt j tok,
    gw_RequestToken gw = Http st txt (Ok j) /\ js_prop j "token" = Ok tok /\
    calls w' = (calls w ++ [CallRequestToken; CallGetTransactionStatus tok (js_to_string oid)])%list.
Proof.
  intros H.
  unfold_pesapal_in H.
  split_run H.
  all: simplify_eq/=.
  all: try (left; reflexivity).
  all: try (right; left; reflexivity).
  all: right; right; do 4 eexists; (split; [first [reflexivity | eassumption] |]); (split; [eassumption |]).
  all: unfold js_to_string; match goal with Ht : js_tostring ?o = Ok _ |- context [js_tostring ?o] => rewrite Ht end.
  all: rewrite <- app_assoc; reflexivity.
Qed.

Lemma poll_calls_witness :
  let w0 := world_with_order "PENDING" in
  let gw := sample_gateway "COMPLETED" in
  let run := pesapal_payment_status sample_env sample_db gw 5 (JStr "BRANDIFY-1-2") w0 in
  calls (snd run) = calls w0 \/ calls (snd run) = (calls w0 ++ [CallRequestToken])%list \/
  exists st txt j tok,
    gw_RequestToken gw = Http st txt (Ok j) /\ js_prop j "token" = Ok tok /\
    calls (snd run) = (calls w0 ++ [CallRequestToken;
                        CallGetTransactionStatus tok (js_to_string (JStr "BRANDIFY-1-2"))])%list.
Proof.
  intros w0 gw run.
  apply (poll_calls sample_env sample_db gw 5 (JStr "BRANDIFY-1-2") w0 (snd run) (fst run)).
  reflexivity.
Defined.

(** X5: Polling an orderId whose document path names no stored order
    writes no order document.  A 200 answer then always carries a falsy
    status: with a truthy status the update fails, with Firestore's
    verdict or with NOT_FOUND for that document's path, and the answer is
    500 with that error. *)
Theorem poll_unknown_order (E : pesapal_env) (db : firestore) (gw : gateway) (now : Z)
    (oid : jsval) (w w' : world) (r : result response) :
  (forall id, doc_path oid = Ok id -> pesapalOrders w !! id = None) ->
  pesapal_payment_status E db gw now oid w = (r, w') ->
  pesapalOrders w' = pesapalOrders w /\
  (forall v rest, r = Ok (RespJson 200 (("status", v) :: rest)) -> truthy v = false) /\
  (forall id v, doc_path oid = Ok id -> truthy v = true ->
     forall rest, r <> Ok (RespJson 200 (("status", v) :: rest))).
Proof.
  intros Hnone H.
  unfold_pesapal_in H.
  split_run H.
  all: simplify_eq/=.
  all: try (specialize (Hnone _ eq_refl); congruence).
  all: (split; [reflexivity |]).
  all: split; [intros v rest Hr; simplify_eq/=; try reflexivity; assumption |].
  all: intros id' v Hid' Hv rest Hr; simplify_eq/=; congruence.
Qed.

Lemma poll_unknown_order_witness :
  let w0 := world_with_order "PENDING" in
  let run := pesapal_payment_status sample_env sample_db (sample_gateway "COMPLETED") 5
               (JStr "X-9") w0 in
  pesapalOrders (snd run) = pesapalOrders w0 /\
  (forall v rest, fst run = Ok (RespJson 200 (("status", v) :: rest)) -> truthy v = false) /\
  (forall id v, doc_path (JStr "X-9") = Ok id -> truthy v = true ->
     forall rest, fst run <> Ok (RespJson 200 (("status", v) :: rest))).
Proof.
  intros w0 run.
  apply (poll_unknown_order sample_env sample_db (sample_gateway "COMPLETED") 5 (JStr "X-9") w0
           (snd run) (fst run)).
  - intros id Hid. vm_compute in Hid. injection Hid as <-. reflexivity.
  - reflexivity.
Defined.

Lemma str_app_cons (x : ascii) (a b : string) : (String x a ++ b)%string = String x (a ++ b).
Proof. reflexivity. Qed.

Lemma str_app_assoc (a b c : string) : ((a ++ b) ++ c)%string = (a ++ (b ++ c))%string.
Proof. induction a as [|x a IH]; [reflexivity | rewrite !str_app_cons, IH; reflexivity]. Qed.

Lemma str_app_nil_r (a : string) : (a ++ "")%string = a.
Proof. induction a as [|x a IH]; [reflexivity | rewrite str_app_cons, IH; reflexivity]. Qed.

Lemma split_space_aux_word (wd s cur : string) :
  has_space wd = false ->
  split_space_aux (wd ++ String " " s) cur = (cur ++ wd)%string :: split_space_aux s "".
Proof.
  revert cur. induction wd as [|c wd IH]; intros cur Hw.
  - cbn. rewrite str_app_nil_r. reflexivity.
  - cbn in Hw. apply orb_false_iff in Hw as [Hc Hw].
    rewrite str_app_cons. cbn [split_space_aux]. rewrite Hc, IH by assumption.
    rewrite str_app_assoc. reflexivity.
Qed.

Lemma name_part_words (w1 w2 rest : string) :
  has_space w1 = false -> has_space w2 = false ->
  name_part (JStr (w1 ++ " " ++ w2 ++ " " ++ rest)) 0 = Ok (JStr w1) /\
  name_part (JStr (w1 ++ " " ++ w2 ++ " " ++ rest)) 1 = Ok (JStr w2).
Proof.
  intros H1 H2. unfold name_part, split_space.
  change (" " ++ w2 ++ " " ++ rest)%string with (String " " (w2 ++ " " ++ rest)).
  change (" " ++ rest)%string with (String " " rest).
  rewrite !split_space_aux_word by assumption. split; reflexivity.
Qed.

(** X6: When customerName is "w1 w2 rest" with non-empty, space-free w1
    and w2, the order sent to PesaPal has billing first_name w1 and
    last_name w2; the words after the second are dropped. *)
Theorem create_name_words (E : pesapal_env) (db : firestore) (gw : gateway) (now rnd : Z)
    (body : list (string * jsval)) (w w' : world) (r : result response)
    (w1 w2 rest : string) (tok : jsval) (od : order_data) :
  field body "customerName" = JStr (w1 ++ " " ++ w2 ++ " " ++ rest) ->
  w1 <> "" -> w2 <> "" -> has_space w1 = false -> has_space w2 = false ->
  create_pesapal_order E db gw now rnd body w = (r, w') ->
  calls w' = (calls w ++ [CallRequestToken; CallSubmitOrder tok od])%list ->
  ba_first_name (odt_billing_address od) = JStr w1 /\
  ba_last_name (odt_billing_address od) = JStr w2.
Proof.
  intros Hn Hw1 Hw2 Hs1 Hs2 H Hcalls.
  destruct (name_part_words w1 w2 rest Hs1 Hs2) as [Hp0 Hp1].
  unfold create_pesapal_order in H. cbv zeta in H. rewrite Hn, Hp0, Hp1 in H.
  unfold_pesapal_in H.
  split_run H.
  all: simplify_eq/=.
  all: rewrite ?app_nil_r, <- ?app_assoc in Hcalls; cbn in Hcalls.
  all: try (apply (f_equal (@length call)) in Hcalls;
             rewrite ?length_app in Hcalls; cbn in Hcalls; lia).
  all: apply app_inv_head in Hcalls; simplify_eq/=.
  all: unfold js_or; cbn.
  all: destruct (String.eqb w1 "") eqn:E1; [apply String.eqb_eq in E1; congruence |].
  all: destruct (String.eqb w2 "") eqn:E2; [apply String.eqb_eq in E2; congruence |].
  all: split; reflexivity.
Qed.

Lemma create_name_words_witness :
  let run := create_pesapal_order sample_env sample_db (sample_gateway "COMPLETED") 1 2
               (named_order_request (JStr "Ada Lovelace Byron")) empty_world in
  exists tok od,
    calls (snd run) = [CallRequestToken; CallSubmitOrder tok od] /\
    ba_first_name (odt_billing_address od) = JStr "Ada" /\
    ba_last_name (odt_billing_address od) = JStr "Lovelace".
Proof.
  intros run. do 2 eexists.
  assert (Hc : calls (snd run) = [CallRequestToken; CallSubmitOrder ?[tok] ?[od]])
    by reflexivity.
  split; [exact Hc |].
  refine (create_name_words sample_env sample_db (sample_gateway "COMPLETED") 1 2
            (named_order_request (JStr "Ada Lovelace Byron")) empty_world (snd run) (fst run)
            "Ada" "Lovelace" "Byron" _ _ _ _ _ _ _ _ Hc);
    [reflexivity | discriminate | discriminate | reflexivity | reflexivity | reflexivity].
Defined.

(** X7: With the credentials set, when the required fields are present
    but customerName is neither a string nor null/undefined (so split is
    not callable), order creation answers 500 after the authentication
    call only, submits nothing and writes no order document and no
    payment. *)
Theorem create_bad_name (E : pesapal_env) (db : firestore) (gw : gateway) (now rnd : Z)
    (body : list (string * jsval)) (w w' : world) (r : result response) :
  credentials_set E = true ->
  required_present body = true ->
  name_splittable (field body "customerName") = false ->
  create_pesapal_order E db gw now rnd body w = (r, w') ->
  resp_status_of r = Some 500%Z /\
  calls w' = (calls w ++ [CallRequestToken])%list /\
  pesapalOrders w' = pesapalOrders w /\ payments w' = payments w.
Proof.
  intros Hcred Hreq Hname H.
  unfold required_present in Hreq. apply andb_true_iff in Hreq as [Hreq He].
  apply andb_true_iff in Hreq as [Ha Hc].
  unfold create_pesapal_order in H. cbv zeta in H. unfold name_part in H.
  unfold_pesapal_in H.
  rewrite Ha, Hc, He, Hcred in H.
  destruct (field body "customerName"); try discriminate.
  all: split_run H.
  all: simplify_eq/=.
  all: repeat split.
Qed.

Lemma create_bad_name_witness :
  let body := named_order_request (JNum 3) in
  let run := create_pesapal_order sample_env sample_db (sample_gateway "COMPLETED") 1 2 body
               empty_world in
  required_present body = true /\ name_splittable (field body "customerName") = false /\
  resp_status_of (fst run) = Some 500%Z /\
  calls (snd run) = (calls empty_world ++ [CallRequestToken])%list /\
  pesapalOrders (snd run) = pesapalOrders empty_world /\
  payments (snd run) = payments empty_world.
Proof.
  intros body run. split; [reflexivity |]. split; [reflexivity |].
  apply (create_bad_name sample_env sample_db (sample_gateway "COMPLETED") 1 2 body empty_world
           (snd run) (fst run)); reflexivity.
Defined.

(** X8: Order creation never adds a payment record and changes no order
    document other than BRANDIFY-<now>-<rnd>. *)
Theorem create_scope (E : pesapal_env) (db : firestore) (gw : gateway) (now rnd : Z)
    (body : list (string * jsval)) (w w' : world) (r : result response) :
  create_pesapal_order E db gw now rnd body w = (r, w') ->
  payments w' = payments w /\
  (forall id, id <> ("BRANDIFY-" ++ Z_to_string now ++ "-" ++ Z_to_string rnd)%string ->
              pesapalOrders w' !! id = pesapalOrders w !! id).
Proof.
  intros H.
  unfold_pesapal_in H.
  split_run H.
  all: simplify_eq/=.
  all: split; [reflexivity | intros id Hid]; try reflexivity.
  all: rewrite lookup_insert_ne by congruence; reflexivity.
Qed.

Lemma create_scope_witness :
  let w0 := world_with_order "COMPLETED" in
  let run := create_pesapal_order sample_env sample_db (sample_gateway "COMPLETED") 3 4
               sample_order_request w0 in
  payments (snd run) = payments w0 /\
  (forall id, id <> ("BRANDIFY-" ++ Z_to_string 3 ++ "-" ++ Z_to_string 4)%string ->
              pesapalOrders (snd run) !! id = pesapalOrders w0 !! id).
Proof.
  intros w0 run.
  apply (create_scope sample_env sample_db (sample_gateway "COMPLETED") 3 4 sample_order_request
           w0 (snd run) (fst run)).
  reflexivity.
Defined.



Ltac unfold_paypal :=
  unfold create_paypal_order, capture_paypal_order, catchA, bindA, pp_execute, log_app_call,
    liftR, doc_get, doc_update, payments_add, doc_set, retA, throwA.

Ltac fs_accept_in H Hr :=
  match type of H with
  | context [fs_refuse ?db ?fw] =>
      let Hw := fresh in
      assert (Hw : fs_refuse db fw = None) by exact Hr; rewrite Hw in H; clear Hw
  end.

Ltac unfold_paypal_in H :=
  unfold create_paypal_order, capture_paypal_order, catchA, bindA, pp_execute, log_app_call,
    liftR, doc_get, doc_update, payments_add, doc_set, retA, throwA in H.

Lemma field_set_field_eq (k : string) (v : jsval) (d : fdoc) : field (set_field k v d) k = v.
Proof.
  induction d as [|[k' v'] d IH]; cbn.
  - unfold field; cbn. rewrite String.eqb_refl. reflexivity.
  - destruct (String.eqb k' k) eqn:E.
    + unfold field; cbn. rewrite String.eqb_refl. reflexivity.
    + unfold field in *; cbn. rewrite E. exact IH.
Qed.

Lemma field_set_field_ne (k k' : string) (v : jsval) (d : fdoc) :
  k <> k' -> field (set_field k v d) k' = field d k'.
Proof.
  intros Hne. induction d as [|[k0 v0] d IH]; cbn.
  - unfold field; cbn. destruct (String.eqb k k') eqn:E; [apply String.eqb_eq in E; congruence |].
    reflexivity.
  - destruct (String.eqb k0 k) eqn:E.
    + apply String.eqb_eq in E; subst k0. unfold field; cbn.
      destruct (String.eqb k k') eqn:E'; [apply String.eqb_eq in E'; congruence | reflexivity].
    + unfold field in *; cbn. destruct (String.eqb k0 k'); [reflexivity | exact IH].
Qed.

Lemma doc_path_str (v : jsval) (id : string) : doc_path v = Ok id -> exists s, v = JStr s.
Proof. destruct v; cbn; try discriminate. eauto. Qed.

(** X10: When PayPal rejects the capture, the handler answers 500 with
    message "Failed to capture PayPal payment" and PayPal's error, and
    changes nothing but the record of the capture call.  An orderID that
    cannot be converted to a string fails earlier, in the constructor of
    the capture request: 500 with the conversion error, and no call. *)
Theorem capture_rejected (db : firestore) (pp : paypal_api) (now : Z)
    (body : list (string * jsval)) (aw : app_world) (msg : string) :
  pp_capture pp (field body "orderID") = PPRejected msg ->
  capture_paypal_order db pp now body aw =
    if stringifiable (field body "orderID") then
      (Ok (RespJson 500 [("message", JStr "Failed to capture PayPal payment"); ("error", JStr msg)]),
       set_app_calls (app_calls aw ++ [CallPayPalCapture (field body "orderID")]) aw)
    else
      (Ok (RespJson 500 [("message", JStr "Failed to capture PayPal payment");
                         ("error", JStr "Cannot convert object to primitive value")]), aw).
Proof.
  intros Hc. unfold_paypal. cbv zeta.
  destruct (stringifiable (field body "orderID")) eqn:Hs.
  - destruct (stringifiable_true _ Hs) as [s Hts]. rewrite Hts, Hc. reflexivity.
  - rewrite (stringifiable_false _ Hs). reflexivity.
Qed.

Lemma capture_rejected_witness :
  capture_paypal_order sample_db rejecting_paypal 8 [("orderID", JStr "PP1")] world_with_paypal_order =
    (Ok (RespJson 500 [("message", JStr "Failed to capture PayPal payment");
                       ("error", JStr "UNPROCESSABLE_ENTITY")]),
     set_app_calls (app_calls world_with_paypal_order ++ [CallPayPalCapture (JStr "PP1")])
       world_with_paypal_order).
Proof.
  apply (capture_rejected sample_db rejecting_paypal 8 [("orderID", JStr "PP1")]
           world_with_paypal_order "UNPROCESSABLE_ENTITY").
  reflexivity.
Defined.

(** X11: When PayPal captures an order that has no paypalOrders document,
    and Firestore lets the update through, the update fails with NOT_FOUND
    for that document's path: the handler answers 500 with that error
    after the capture call, and records no payment and writes no
    document. *)
Theorem capture_unknown_order (db : firestore) (pp : paypal_api) (now : Z)
    (body : list (string * jsval)) (aw : app_world) (oid id : string) (c : jsval) :
  field body "orderID" = JStr oid ->
  doc_path (JStr oid) = Ok id ->
  docs aw !! ("paypalOrders", id) = None ->
  pp_capture pp (JStr oid) = PPResult c ->
  fs_refuse db {| fw_op := FsUpdate; fw_path := "paypalOrders/" ++ id;
                  fw_data := [("status", JStr "COMPLETED"); ("capturedAt", JNum now);
                              ("captureData", c)];
                  fw_exists := false |} = None ->
  capture_paypal_order db pp now body aw =
    (Ok (RespJson 500 [("message", JStr "Failed to capture PayPal payment");
                       ("error", JStr (not_found db ("paypalOrders/" ++ id)))]),
     set_app_calls (app_calls aw ++ [CallPayPalCapture (JStr oid)]) aw).
Proof.
  intros Ho Hp Hn Hc Hr.
  unfold_paypal. cbv zeta. rewrite Ho. cbn -[doc_path]. rewrite Hc. cbn -[doc_path].
  rewrite Hp. cbn -[doc_path]. rewrite Hn. cbn -[doc_path].
  fs_accept Hr. reflexivity.
Qed.

Lemma capture_unknown_order_witness :
  capture_paypal_order sample_db sample_paypal 8 [("orderID", JStr "PP1")] empty_app_world =
    (Ok (RespJson 500 [("message", JStr "Failed to capture PayPal payment");
                       ("error", JStr (not_found sample_db ("paypalOrders/" ++ "PP1")))]),
     set_app_calls (app_calls empty_app_world ++ [CallPayPalCapture (JStr "PP1")])
       empty_app_world).
Proof.
  apply (capture_unknown_order sample_db sample_paypal 8 [("orderID", JStr "PP1")] empty_app_world
           "PP1" "PP1" sample_capture); reflexivity.
Defined.

(** X12: A capture of a stored order with a payer e-mail and a capture id,
    whose writes Firestore accepts, answers 200 with the paymentData it
    appends to the payments records (planId, planName, amount, currency
    taken from the stored order, transactionId the first capture id); the
    record is stored with the server time as createdAt, while the answer
    shows the serialized serverTimestamp() placeholder {}.  The stored
    order gets status COMPLETED and the capture data, with its other
    fields unchanged. *)
Theorem capture_success (db : firestore) (pp : paypal_api) (now : Z)
    (body : list (string * jsval)) (aw : app_world) (oid id : string) (d : fdoc)
    (c payer email tid : jsval) :
  field body "orderID" = JStr oid ->
  doc_path (JStr oid) = Ok id ->
  docs aw !! ("paypalOrders", id) = Some d ->
  pp_capture pp (JStr oid) = PPResult c ->
  js_prop c "payer" = Ok payer -> js_prop payer "email_address" = Ok email ->
  capture_id c = Ok tid ->
  fs_refuse db {| fw_op := FsUpdate; fw_path := "paypalOrders/" ++ id;
                  fw_data := [("status", JStr "COMPLETED"); ("capturedAt", JNum now);
                              ("captureData", c)];
                  fw_exists := true |} = None ->
  let paymentData (createdAt : jsval) :=
    [("userId", JStr ""); ("email", email); ("planId", field d "planId");
     ("planName", field d "planName"); ("amount", field d "amount");
     ("currency", field d "currency"); ("paymentMethod", JStr "paypal");
     ("createdAt", createdAt); ("status", JStr "completed"); ("orderId", JStr oid);
     ("transactionId", tid)] in
  fs_refuse db {| fw_op := FsAdd; fw_path := "payments"; fw_data := paymentData (JNum now);
                  fw_exists := false |} = None ->
  exists aw',
    capture_paypal_order db pp now body aw =
      (Ok (RespJson 200 [("success", JBool true);
                         ("paymentData", JObj (paymentData server_timestamp_json))]), aw') /\
    paypalPayments aw' = (paypalPayments aw ++ [paymentData (JNum now)])%list /\
    exists d', docs aw' !! ("paypalOrders", id) = Some d' /\
      field d' "status" = JStr "COMPLETED" /\ field d' "captureData" = c /\
      (forall k, k <> "status" -> k <> "capturedAt" -> k <> "captureData" ->
                 field d' k = field d k).
Proof.
  intros Ho Hp Hd Hc Hpay Hem Hid Hupd paymentData Hadd.
  unfold_paypal. cbv zeta. rewrite Ho. cbn -[doc_path]. rewrite Hc. cbn -[doc_path].
  rewrite Hp. cbn -[doc_path]. rewrite Hd. cbn -[doc_path].
  fs_accept Hupd. cbn -[doc_path].
  rewrite Hpay, Hem. cbn -[doc_path]. rewrite Hid. cbn -[doc_path].
  fs_accept Hadd. cbn.
  eexists; split; [reflexivity |]. split; [reflexivity |].
  cbn. rewrite lookup_insert_eq. eexists; split; [reflexivity |].
  split; [| split].
  - rewrite field_set_field_ne by discriminate. rewrite field_set_field_ne by discriminate.
    apply field_set_field_eq.
  - apply field_set_field_eq.
  - intros k H1 H2 H3. rewrite !field_set_field_ne by congruence. reflexivity.
Qed.

Lemma capture_success_witness :
  let paymentData (createdAt : jsval) :=
    [("userId", JStr ""); ("email", JStr "x@y.com"); ("planId", JStr "p1");
     ("planName", JStr "Pro"); ("amount", JNum 10);
     ("currency", JStr "USD"); ("paymentMethod", JStr "paypal");
     ("createdAt", createdAt); ("status", JStr "completed"); ("orderId", JStr "PP1");
     ("transactionId", JStr "CAP1")] in
  exists aw',
    capture_paypal_order sample_db sample_paypal 8 [("orderID", JStr "PP1")] world_with_paypal_order =
      (Ok (RespJson 200 [("success", JBool true);
                         ("paymentData", JObj (paymentData server_timestamp_json))]), aw') /\
    paypalPayments aw' = (paypalPayments world_with_paypal_order ++ [paymentData (JNum 8)])%list /\
    exists d', docs aw' !! ("paypalOrders", "PP1") = Some d' /\
      field d' "status" = JStr "COMPLETED" /\ field d' "captureData" = sample_capture /\
      (forall k, k <> "status" -> k <> "capturedAt" -> k <> "captureData" ->
                 field d' k = field sample_paypal_order k).
Proof.
  apply (capture_success sample_db sample_paypal 8 [("orderID", JStr "PP1")] world_with_paypal_order
           "PP1" "PP1" sample_paypal_order sample_capture (JObj [("email_address", JStr "x@y.com")])
           (JStr "x@y.com") (JStr "CAP1")); reflexivity.
Defined.

(** X13: If the captured payer has no email_address, the handler answers
    500 and records no payment, but the stored order has already been
    marked COMPLETED. *)
Theorem capture_without_email (db : firestore) (pp : paypal_api) (now : Z)
    (body : list (string * jsval)) (aw aw' : app_world) (r : result response) (id : string)
    (d : fdoc) (c payer : jsval) :
  doc_path (field body "orderID") = Ok id ->
  docs aw !! ("paypalOrders", id) = Some d ->
  pp_capture pp (field body "orderID") = PPResult c ->
  fs_refuse db {| fw_op := FsUpdate; fw_path := "paypalOrders/" ++ id;
                  fw_data := [("status", JStr "COMPLETED"); ("capturedAt", JNum now);
                              ("captureData", c)];
                  fw_exists := true |} = None ->
  js_prop c "payer" = Ok payer -> js_prop payer "email_address" = Ok JUndef ->
  capture_paypal_order db pp now body aw = (r, aw') ->
  resp_status_of r = Some 500%Z /\
  paypalPayments aw' = paypalPayments aw /\
  exists d', docs aw' !! ("paypalOrders", id) = Some d' /\ field d' "status" = JStr "COMPLETED".
Proof.
  intros Hp Hd Hc Hupd Hpay Hem H.
  destruct (doc_path_str _ _ Hp) as [oid Ho].
  unfold_paypal_in H. cbv zeta in H. rewrite Ho in *. cbn -[doc_path] in H.
  rewrite Hc in H. cbn -[doc_path] in H. rewrite Hp in H. cbn -[doc_path] in H.
  rewrite Hd in H. cbn -[doc_path] in H.
  fs_accept_in H Hupd. cbn -[doc_path] in H.
  rewrite Hpay, Hem in H. cbn -[doc_path] in H.
  split_run H.
  all: simplify_eq/=.
  all: try (exfalso; eapply fs_refuse_undefined; [| eassumption]; reflexivity).
  all: (split; [reflexivity |]); (split; [reflexivity |]).
  all: rewrite lookup_insert_eq; eexists; split; [reflexivity |].
  all: rewrite field_set_field_ne by discriminate; rewrite field_set_field_ne by discriminate;
    apply field_set_field_eq.
Qed.

Lemma capture_without_email_witness :
  let run := capture_paypal_order sample_db (paypal_capturing capture_without_payer_email) 8
               [("orderID", JStr "PP1")] world_with_paypal_order in
  resp_status_of (fst run) = Some 500%Z /\
  paypalPayments (snd run) = paypalPayments world_with_paypal_order /\
  exists d', docs (snd run) !! ("paypalOrders", "PP1") = Some d' /\
             field d' "status" = JStr "COMPLETED".
Proof.
  intros run.
  apply (capture_without_email sample_db (paypal_capturing capture_without_payer_email) 8
           [("orderID", JStr "PP1")] world_with_paypal_order (snd run) (fst run) "PP1"
           sample_paypal_order capture_without_payer_email (JObj [])); reflexivity.
Defined.

(** X14: A PayPal order request with amount undefined or null is answered
    500 with message "Failed to create PayPal order" and the toString
    TypeError, before any PayPal call and without any change. *)
Theorem paypal_create_no_amount (db : firestore) (pp : paypal_api) (now : Z)
    (body : list (string * jsval)) (aw : app_world) :
  field body "amount" = JUndef \/ field body "amount" = JNull ->
  create_paypal_order db pp now body aw =
    (Ok (RespJson 500 [("message", JStr "Failed to create PayPal order");
                       ("error", JStr ("Cannot read properties of " ++
                                       js_to_string (field body "amount") ++
                                       " (reading 'toString')"))]), aw).
Proof.
  intros [H | H]; unfold create_paypal_order, catchA, bindA, liftR, to_string_method;
    rewrite H; reflexivity.
Qed.

Lemma paypal_create_no_amount_witness :
  create_paypal_order sample_db sample_paypal 7 [("currency", JStr "USD")] empty_app_world =
    (Ok (RespJson 500 [("message", JStr "Failed to create PayPal order");
                       ("error", JStr "Cannot read properties of undefined (reading 'toString')")]),
     empty_app_world).
Proof.
  apply (paypal_create_no_amount sample_db sample_paypal 7 [("currency", JStr "USD")]
           empty_app_world).
  left; reflexivity.
Defined.





Lemma has_slash_app (a b : string) : has_slash (a ++ b) = has_slash a || has_slash b.
Proof.
  induction a as [|c a IH]; [reflexivity |].
  rewrite str_app_cons. cbn [has_slash]. rewrite IH. apply orb_assoc.
Qed.

Lemma has_slash_pretty_N_go (x : N) (s : string) : has_slash (pretty_N_go x s) = has_slash s.
Proof.
  revert s. induction (N.lt_wf_0 x) as [x _ IH]; intros s.
  destruct (decide (x = 0%N)) as [-> | Hx].
  - rewrite pretty_N_go_0. reflexivity.
  - rewrite pretty_N_go_step by lia. rewrite IH by (apply N.div_lt; lia).
    cbn [has_slash]. unfold pretty_N_char. repeat case_match; reflexivity.
Qed.

Lemma has_slash_Z_to_string (z : Z) : has_slash (Z_to_string z) = false.
Proof.
  destruct z as [|p|p]; [reflexivity | |].
  - cbn [Z_to_string]. unfold pretty, pretty_N.
    destruct (decide (N.pos p = 0%N)); [reflexivity |].
    rewrite has_slash_pretty_N_go. reflexivity.
  - cbn [Z_to_string]. rewrite has_slash_app. unfold pretty, pretty_N.
    destruct (decide (N.pos p = 0%N)); [reflexivity |].
    rewrite has_slash_pretty_N_go. reflexivity.
Qed.

Lemma no_slash_no_double (s : string) : has_slash s = false -> has_double_slash s = false.
Proof.
  induction s as [|c s IH]; [reflexivity |].
  cbn [has_slash]. intros H. apply orb_false_iff in H as [Hc Hs].
  destruct s as [|d s']; [reflexivity |].
  cbn [has_double_slash]. rewrite Hc. cbn. apply IH. exact Hs.
Qed.

Lemma split_slash_no_slash (s cur : string) :
  has_slash s = false -> split_slash_aux s cur = [(cur ++ s)%string].
Proof.
  revert cur. induction s as [|c s IH]; intros cur H.
  - cbn. rewrite str_app_nil_r. reflexivity.
  - cbn [has_slash] in H. apply orb_false_iff in H as [Hc Hs].
    cbn [split_slash_aux]. rewrite Hc, IH by assumption.
    rewrite str_app_assoc. reflexivity.
Qed.

(** A non-empty id without a slash is its own document path. *)
Lemma doc_path_plain (s : string) :
  s <> "" -> has_slash s = false -> doc_path (JStr s) = Ok s.
Proof.
  intros Hne Hs. unfold doc_path.
  destruct (String.eqb s "") eqn:E; [apply String.eqb_eq in E; congruence |].
  rewrite no_slash_no_double by assumption.
  rewrite split_slash_no_slash by assumption. change ("" ++ s)%string with s.
  cbn. rewrite E. cbn. reflexivity.
Qed.

(** The uid of a developer registered at [now]. *)
Lemma doc_path_dev_uid (now : Z) :
  doc_path (JStr ("dev-" ++ Z_to_string now)) = Ok ("dev-" ++ Z_to_string now)%string.
Proof.
  apply doc_path_plain; [discriminate |].
  rewrite has_slash_app, has_slash_Z_to_string. reflexivity.
Qed.

(** X17: Registering a developer with a string tag that is a valid document
    path, a new uid dev-<now> and working Auth calls, when Firestore accepts
    the two batched writes and their commit, answers 200 with uid, tag and
    custom token, adds the Auth user, and writes exactly the
    developerTags/<tag> and users/<uid> documents (createdBy defaulting to
    system@admin), after the createUser and createCustomToken calls. *)
Theorem register_success (db : firestore) (au : admin_auth) (now : Z)
    (body : list (string * jsval)) (aw : app_world) (tag p tok : string) :
  let uid := ("dev-" ++ Z_to_string now)%string in
  field body "tag" = JStr tag -> doc_path (JStr tag) = Ok p ->
  existsb (String.eqb uid) (authUsers aw) = false -> au_createUser au uid = None ->
  au_createCustomToken au (JStr uid) = Ok tok ->
  let tagDoc := [("tag", JStr tag); ("assignedTo", JStr uid);
                 ("createdBy", js_or (field body "managerEmail") (JStr "system@admin"));
                 ("createdAt", JNum now); ("isActive", JBool true); ("customToken", JStr tok)] in
  let userDoc := [("name", JStr "Developer"); ("tag", JStr tag); ("createdAt", JNum now);
                  ("isManager", JBool false)] in
  let w1 := {| fw_op := FsBatchSet; fw_path := "developerTags/" ++ p; fw_data := tagDoc;
               fw_exists := is_stored (docs aw !! ("developerTags", p)) |} in
  let w2 := {| fw_op := FsBatchSet; fw_path := "users/" ++ uid; fw_data := userDoc;
               fw_exists := is_stored (docs aw !! ("users", uid)) |} in
  fs_refuse db w1 = None -> fs_refuse db w2 = None -> fs_refuse_commit db [w1; w2] = None ->
  register_developer db au now body aw =
    (Ok (RespJson 200 [("success", JBool true); ("uid", JStr uid); ("tag", JStr tag);
                       ("customToken", JStr tok)]),
     {| pesapal := pesapal aw;
        docs := <[("users", uid) := userDoc]> (<[("developerTags", p) := tagDoc]> (docs aw));
        paypalPayments := paypalPayments aw;
        authUsers := (authUsers aw ++ [uid])%list;
        app_calls := (app_calls aw ++ [CallCreateUser uid; CallCreateCustomToken (JStr uid)])%list |}).
Proof.
  intros uid Htag Hp Hnew Hcu Htok tagDoc userDoc w1 w2 Hw1 Hw2 Hc.
  assert (Hu : doc_path (JStr uid) = Ok uid) by apply doc_path_dev_uid.
  assert (Hne : String.eqb tag "" = false).
  { destruct (String.eqb tag "") eqn:E; [| reflexivity].
    apply String.eqb_eq in E; subst tag. discriminate Hp. }
  unfold register_developer, catchA, bindA, auth_create_user, auth_custom_token, log_app_call,
    liftR, batch_set, batch_commit, retA, throwA.
  rewrite Htag. cbn -[doc_path js_or]. rewrite Hne. cbn -[doc_path js_or].
  fold uid. rewrite Hnew, Hcu. cbn -[doc_path js_or]. rewrite Htok. cbn -[doc_path js_or].
  rewrite Hp. fold uid. rewrite Hu. cbn -[js_or].
  fs_accept Hw1. cbn -[js_or]. fs_accept Hw2. cbn -[js_or].
  match goal with
  | |- context [fs_refuse_commit ?d ?l] =>
      let Hw := fresh in
      assert (Hw : fs_refuse_commit d l = None) by exact Hc; rewrite Hw; clear Hw
  end.
  cbn. rewrite <- app_assoc. reflexivity.
Qed.

Lemma register_success_witness :
  register_developer sample_db sample_auth 5 [("tag", JStr "t1")] empty_app_world =
    (Ok (RespJson 200 [("success", JBool true); ("uid", JStr "dev-5"); ("tag", JStr "t1");
                       ("customToken", JStr "tok-dev-5")]),
     {| pesapal := empty_world;
        docs := <[("users", "dev-5") :=
                   [("name", JStr "Developer"); ("tag", JStr "t1"); ("createdAt", JNum 5);
                    ("isManager", JBool false)]]>
                (<[("developerTags", "t1") :=
                   [("tag", JStr "t1"); ("assignedTo", JStr "dev-5");
                    ("createdBy", JStr "system@admin");
                    ("createdAt", JNum 5); ("isActive", JBool true);
                    ("customToken", JStr "tok-dev-5")]]> ∅);
        paypalPayments := [];
        authUsers := ["dev-5"];
        app_calls := [CallCreateUser "dev-5"; CallCreateCustomToken (JStr "dev-5")] |}).
Proof.
  apply (register_success sample_db sample_auth 5 [("tag", JStr "t1")] empty_app_world "t1" "t1"
           "tok-dev-5"); reflexivity.
Defined.

(** X18: POST /index either answers 200 having written exactly a developerTags
    document and the users/dev-<now> document, or answers 400 with no change at
    all, or answers 500 with no document written: the batch never writes one
    document without the other. *)
Theorem register_outcomes (db : firestore) (au : admin_auth) (now : Z)
    (body : list (string * jsval)) (aw aw' : app_world) (r : result response) :
  register_developer db au now body aw = (r, aw') ->
  (resp_status_of r = Some 200%Z /\
   exists p td ud, docs aw' = <[("users", ("dev-" ++ Z_to_string now)%string) := ud]>
                                (<[("developerTags", p) := td]> (docs aw))) \/
  (resp_status_of r = Some 400%Z /\ aw' = aw) \/
  (resp_status_of r = Some 500%Z /\ docs aw' = docs aw).
Proof.
  intros H.
  unfold register_developer, batch_set, batch_commit, catchA, bindA, auth_create_user,
    auth_custom_token, log_app_call, liftR, retA, throwA in H.
  rewrite doc_path_dev_uid in H.
  remember ("dev-" ++ Z_to_string now)%string as uid eqn:Huid; clear Huid.
  split_run H.
  all: simplify_eq.
  all: cbn [docs set_docs set_app_calls set_authUsers fold_left fst snd resp_status_of resp_status].
  all: try (right; left; split; reflexivity).
  all: try (right; right; split; reflexivity).
  left; split; [reflexivity |]. do 3 eexists. reflexivity.
Qed.

Lemma register_outcomes_witness :
  let run := register_developer sample_db sample_auth 5 [("tag", JStr "t1")] empty_app_world in
  (resp_status_of (fst run) = Some 200%Z /\
   exists p td ud, docs (snd run) = <[("users", ("dev-" ++ Z_to_string 5)%string) := ud]>
                                (<[("developerTags", p) := td]> (docs empty_app_world))) \/
  (resp_status_of (fst run) = Some 400%Z /\ snd run = empty_app_world) \/
  (resp_status_of (fst run) = Some 500%Z /\ docs (snd run) = docs empty_app_world).
Proof.
  intros run.
  apply (register_outcomes sample_db sample_auth 5 [("tag", JStr "t1")] empty_app_world
           (snd run) (fst run)).
  reflexivity.
Defined.

(** X19: If the Auth user is created but the custom token or the tag path then
    fails, POST /index answers 500 with that error, writes no document, and
    leaves the new Auth user dev-<now> in place. *)
Theorem register_orphan_user (db : firestore) (au : admin_auth) (now : Z)
    (body : list (string * jsval)) (aw aw' : app_world) (r : result response) (msg : string) :
  let uid := ("dev-" ++ Z_to_string now)%string in
  truthy (field body "tag") = true ->
  existsb (String.eqb uid) (authUsers aw) = false -> au_createUser au uid = None ->
  (au_createCustomToken au (JStr uid) = Thrown msg \/
   exists tok, au_createCustomToken au (JStr uid) = Ok tok /\ doc_path (field body "tag") = Thrown msg) ->
  register_developer db au now body aw = (r, aw') ->
  r = Ok (RespJson 500 [("error", JStr msg)]) /\
  authUsers aw' = (authUsers aw ++ [uid])%list /\ docs aw' = docs aw.
Proof.
  intros uid Htag Hnew Hcu Hfail H.
  unfold register_developer, catchA, bindA, auth_create_user, auth_custom_token, log_app_call,
    liftR, batch_set, batch_commit, retA, throwA in H.
  rewrite Htag in H. cbn -[doc_path] in H. fold uid in H. rewrite Hnew, Hcu in H.
  cbn -[doc_path] in H.
  destruct Hfail as [Ht | [tok [Ht Hp]]]; rewrite Ht in H; cbn -[doc_path] in H;
    [| rewrite Hp in H; cbn in H]; simplify_eq/=; repeat split.
Qed.

Lemma register_orphan_user_witness :
  let run := register_developer sample_db unsigning_auth 5 [("tag", JStr "t1")] empty_app_world in
  fst run = Ok (RespJson 500 [("error", JStr "Failed to sign")]) /\
  authUsers (snd run) = ["dev-5"] /\ docs (snd run) = ∅.
Proof.
  intros run.
  apply (register_orphan_user sample_db unsigning_auth 5 [("tag", JStr "t1")] empty_app_world
           (snd run) (fst run) "Failed to sign"); try reflexivity.
  left; reflexivity.
Defined.

Lemma register_adds_user (db : firestore) (au : admin_auth) (now : Z)
    (body : list (string * jsval)) (aw aw' : app_world) (r : result response) :
  register_developer db au now body aw = (r, aw') ->
  resp_status_of r = Some 200%Z ->
  existsb (String.eqb ("dev-" ++ Z_to_string now)%string) (authUsers aw') = true.
Proof.
  intros H Hst.
  unfold register_developer, batch_set, batch_commit, catchA, bindA, auth_create_user,
    auth_custom_token, log_app_call, liftR, retA, throwA in H.
  rewrite doc_path_dev_uid in H.
  remember ("dev-" ++ Z_to_string now)%string as uid eqn:Huid; clear Huid.
  split_run H.
  all: simplify_eq/=.
  rewrite existsb_app. cbn. rewrite String.eqb_refl, orb_true_r. reflexivity.
Qed.

(** X20: After a successful developer registration at time now, a second
    registration at the same millisecond is refused with 500 "The user with the
    provided uid already exists." and changes nothing but the record of the
    createUser call. *)
Theorem register_same_millisecond (db : firestore) (au : admin_auth) (now : Z)
    (body1 body2 : list (string * jsval)) (aw aw1 : app_world) (r1 : result response) :
  register_developer db au now body1 aw = (r1, aw1) ->
  resp_status_of r1 = Some 200%Z ->
  truthy (field body2 "tag") = true ->
  register_developer db au now body2 aw1 =
    (Ok (RespJson 500 [("error", JStr "The user with the provided uid already exists.")]),
     set_app_calls (app_calls aw1 ++ [CallCreateUser ("dev-" ++ Z_to_string now)%string]) aw1).
Proof.
  intros H1 Hst Htag.
  pose proof (register_adds_user db au now body1 aw aw1 r1 H1 Hst) as Hin.
  unfold register_developer, catchA, bindA, auth_create_user, log_app_call, retA, throwA.
  rewrite Htag. cbn -[Z_to_string]. rewrite Hin. reflexivity.
Qed.

Lemma register_same_millisecond_witness :
  let aw1 := snd (register_developer sample_db sample_auth 5 [("tag", JStr "t1")] empty_app_world) in
  register_developer sample_db sample_auth 5 [("tag", JStr "t2")] aw1 =
    (Ok (RespJson 500 [("error", JStr "The user with the provided uid already exists.")]),
     set_app_calls (app_calls aw1 ++ [CallCreateUser "dev-5"]) aw1).
Proof.
  intros aw1.
  apply (register_same_millisecond sample_db sample_auth 5 [("tag", JStr "t1")] [("tag", JStr "t2")]
           empty_app_world aw1
           (fst (register_developer sample_db sample_auth 5 [("tag", JStr "t1")] empty_app_world)));
    reflexivity.
Defined.

Lemma catchM_answers {A} (m : M A) (h : string -> M A) (w : world) :
  (forall e w', exists a w'', h e w' = (Ok a, w'')) ->
  exists a w', catchM m h w = (Ok a, w').
Proof.
  intros Hh. unfold catchM. destruct (m w) as [[a | e] w']; [eauto | apply Hh].
Qed.

Lemma catchA_answers {A} (m : AM A) (h : string -> AM A) (aw : app_world) :
  (forall e aw', exists a aw'', h e aw' = (Ok a, aw'')) ->
  exists a aw', catchA m h aw = (Ok a, aw').
Proof.
  intros Hh. unfold catchA. destruct (m aw) as [[a | e] aw']; [eauto | apply Hh].
Qed.

Lemma pesapalA_answers {A} (m : M A) (aw : app_world) :
  (exists a w', m (pesapal aw) = (Ok a, w')) ->
  exists a aw', pesapalA m aw = (Ok a, aw').
Proof.
  intros [a [w' H]]. unfold pesapalA. rewrite H. eauto.
Qed.

(** The callback answers once both fields convert to strings. *)
Lemma ipn_answers (db : firestore) (now : Z) (body : list (string * jsval)) (w : world) :
  stringifiable (field body "order_tracking_id") = true ->
  stringifiable (field body "payment_status") = true ->
  exists a w', pesapal_ipn db now body w = (Ok a, w').
Proof.
  intros H1 H2.
  destruct (stringifiable_true _ H1) as [s1 E1]. destruct (stringifiable_true _ H2) as [s2 E2].
  unfold pesapal_ipn, bindM at 1 2, liftM at 1 2. cbv zeta. rewrite E1, E2.
  apply catchM_answers. intros. unfold retM. eauto.
Qed.

(** The callback throws, outside its try, when a field does not convert. *)
Lemma ipn_throws (db : firestore) (now : Z) (body : list (string * jsval)) (w : world) :
  stringifiable (field body "order_tracking_id") && stringifiable (field body "payment_status")
    = false ->
  pesapal_ipn db now body w = (Thrown "Cannot convert object to primitive value", w).
Proof.
  intros H.
  unfold pesapal_ipn, bindM at 1 2, liftM at 1 2. cbv zeta.
  destruct (stringifiable (field body "order_tracking_id")) eqn:H1.
  - destruct (stringifiable_true _ H1) as [s1 E1]. rewrite E1.
    cbn in H. rewrite (stringifiable_false _ H). reflexivity.
  - rewrite (stringifiable_false _ H1). reflexivity.
Qed.

Lemma ipn_route_only (rq : request) :
  is_post rq "/api/pesapal-ipn" = true ->
  String.eqb (rq_method rq) "OPTIONS" = false /\
  is_post rq "/api/create-pesapal-order" = false /\
  is_get rq "/api/pesapal-payment-status" = false.
Proof.
  unfold is_post, is_get, route_is. intros H.
  apply andb_prop in H as [Hm Hr]. apply String.eqb_eq in Hm. rewrite Hm.
  apply orb_true_iff in Hr.
  destruct Hr as [Hr | Hr]; apply String.eqb_eq in Hr; rewrite Hr; repeat split.
Qed.

(** X21: Every request gets a response, except a callback (POST
    /api/pesapal-ipn, past the middleware) whose order_tracking_id or
    payment_status cannot be converted to a string: that conversion throws
    outside the handler's try, its promise is rejected, no response is sent
    and nothing changes. *)
Theorem serve_answers (sv : services) (E : pesapal_env) (now rnd : Z) (rq : request)
    (aw : app_world) :
  ((forall body, rq_body rq = BodyJson body -> is_post rq "/api/pesapal-ipn" = true ->
      stringifiable (field body "order_tracking_id") &&
      stringifiable (field body "payment_status") = true) ->
   exists resp aw', serve sv E now rnd rq aw = (Ok resp, aw')) /\
  (forall body, rq_body rq = BodyJson body -> cors_origin (rq_origin rq) = Ok true ->
      is_post rq "/api/pesapal-ipn" = true ->
      stringifiable (field body "order_tracking_id") &&
      stringifiable (field body "payment_status") = false ->
      serve sv E now rnd rq aw = (Thrown "Cannot convert object to primitive value", aw)).
Proof.
  split.
  - intros Hipn. unfold serve.
    destruct (rq_body rq) as [body | msg] eqn:Hb; [| unfold retA; eauto].
    destruct (cors_origin (rq_origin rq)); [| unfold retA; eauto].
    repeat match goal with
           | |- context [if ?b then _ else _] => destruct b eqn:?
           end.
    all: try (unfold retA; eauto; fail).
    all: try (apply pesapalA_answers).
    all: first
      [ match goal with
        | Hp : is_post _ "/api/pesapal-ipn" = true |- _ =>
            destruct (andb_prop _ _ (Hipn body eq_refl eq_refl)); apply ipn_answers; assumption
        end
      | unfold create_pesapal_order; apply catchM_answers
      | unfold pesapal_payment_status; apply catchM_answers
      | unfold create_paypal_order; apply catchA_answers
      | unfold capture_paypal_order; apply catchA_answers
      | unfold register_developer; destruct (negb _); [unfold retA; eauto | apply catchA_answers]
      | unfold get_custom_token; destruct (negb _); [unfold retA; eauto | apply catchA_answers] ].
    all: intros; unfold retM, retA; eauto.
  - intros body Hb Hc Hp Hs.
    destruct (ipn_route_only rq Hp) as (H1 & H2 & H3).
    unfold serve. rewrite Hb, Hc, H1, H2, H3, Hp.
    unfold pesapalA. rewrite ipn_throws by exact Hs.
    destruct aw; reflexivity.
Qed.

Lemma serve_answers_witness :
  (exists resp aw',
     serve sample_services sample_env 5 6
       (sample_request "POST" "/getCustomToken" None (BodyJson [("uid", JStr "dev-5")]))
       empty_app_world = (Ok resp, aw')) /\
  serve sample_services sample_env 5 6
    (sample_request "POST" "/api/pesapal-ipn" None
       (BodyJson [("order_tracking_id", bad_tostring_value); ("payment_status", JStr "COMPLETED")]))
    empty_app_world = (Thrown "Cannot convert object to primitive value", empty_app_world).
Proof.
  split.
  - apply (proj1 (serve_answers sample_services sample_env 5 6
             (sample_request "POST" "/getCustomToken" None (BodyJson [("uid", JStr "dev-5")]))
             empty_app_world)).
    intros body _ Hp. discriminate Hp.
  - apply (proj2 (serve_answers sample_services sample_env 5 6
             (sample_request "POST" "/api/pesapal-ipn" None
                (BodyJson [("order_tracking_id", bad_tostring_value);
                           ("payment_status", JStr "COMPLETED")]))
             empty_app_world)
             [("order_tracking_id", bad_tostring_value); ("payment_status", JStr "COMPLETED")]);
      reflexivity.
Defined.

(** X22: A malformed JSON body is answered 500 with the parse error, and a
    request from an origin that is non-empty and not allowed is answered 500
    "Not allowed by CORS"; in both cases no handler runs and nothing changes. *)
Theorem middleware_rejections (sv : services) (E : pesapal_env) (now rnd : Z)
    (rq : request) (aw : app_world) :
  (forall msg, rq_body rq = BodyMalformed msg ->
     serve sv E now rnd rq aw = (Ok (RespJson 500 [("error", JStr msg)]), aw)) /\
  (forall body o, rq_body rq = BodyJson body -> rq_origin rq = Some o -> o <> "" ->
     ~ In o allowedOrigins ->
     serve sv E now rnd rq aw = (Ok (RespJson 500 [("error", JStr "Not allowed by CORS")]), aw)).
Proof.
  split.
  - intros msg Hb. unfold serve. rewrite Hb. reflexivity.
  - intros body o Hb Ho Hne Hin. unfold serve, cors_origin. rewrite Hb, Ho.
    destruct (String.eqb o "") eqn:Eo; [apply String.eqb_eq in Eo; congruence |].
    destruct (existsb (String.eqb o) allowedOrigins) eqn:Ex; [| reflexivity].
    apply existsb_exists in Ex as [x [Hx Hox]]. apply String.eqb_eq in Hox. subst x.
    contradiction.
Qed.

Lemma middleware_rejections_witness :
  serve sample_services sample_env 5 6
    (sample_request "POST" "/index" None (BodyMalformed "Unexpected token")) empty_app_world =
    (Ok (RespJson 500 [("error", JStr "Unexpected token")]), empty_app_world) /\
  serve sample_services sample_env 5 6
    (sample_request "POST" "/index" (Some "https://evil.example") (BodyJson [("tag", JStr "t1")]))
    empty_app_world =
    (Ok (RespJson 500 [("error", JStr "Not allowed by CORS")]), empty_app_world).
Proof.
  split.
  - apply (proj1 (middleware_rejections sample_services sample_env 5 6
             (sample_request "POST" "/index" None (BodyMalformed "Unexpected token"))
             empty_app_world)).
    reflexivity.
  - apply (proj2 (middleware_rejections sample_services sample_env 5 6
             (sample_request "POST" "/index" (Some "https://evil.example")
                (BodyJson [("tag", JStr "t1")])) empty_app_world)
             [("tag", JStr "t1")] "https://evil.example"); try reflexivity; try discriminate.
    cbv. intros [H | [H | [H | []]]]; discriminate H.
Defined.

(** X23: From an allowed origin, an OPTIONS request is answered 204 and a
    request that is neither POST nor a GET/HEAD of the payment-status route (for
    instance GET /api/pesapal-ipn) is answered 404 "Route not found", both
    without any change. *)
Theorem unrouted_requests (sv : services) (E : pesapal_env) (now rnd : Z)
    (rq : request) (aw : app_world) (body : list (string * jsval)) :
  rq_body rq = BodyJson body -> cors_origin (rq_origin rq) = Ok true ->
  (rq_method rq = "OPTIONS" -> serve sv E now rnd rq aw = (Ok (RespText 204 ""), aw)) /\
  (rq_method rq <> "OPTIONS" -> rq_method rq <> "POST" ->
   is_get rq "/api/pesapal-payment-status" = false ->
   serve sv E now rnd rq aw = (Ok not_found_response, aw)).
Proof.
  intros Hb Ho. unfold serve. rewrite Hb, Ho. split.
  - intros Hm. rewrite Hm. reflexivity.
  - intros Hm Hp Hg. rewrite Hg.
    destruct (String.eqb (rq_method rq) "OPTIONS") eqn:Eo; [apply String.eqb_eq in Eo; congruence |].
    assert (Hpost : forall route, is_post rq route = false).
    { intros route. unfold is_post.
      destruct (String.eqb (rq_method rq) "POST") eqn:E'; [apply String.eqb_eq in E'; congruence |].
      reflexivity. }
    rewrite !Hpost. reflexivity.
Qed.

Lemma unrouted_requests_witness :
  serve sample_services sample_env 5 6
    (sample_request "OPTIONS" "/index" (Some "http://localhost:3000") (BodyJson []))
    empty_app_world = (Ok (RespText 204 ""), empty_app_world) /\
  serve sample_services sample_env 5 6
    (sample_request "GET" "/api/pesapal-ipn" (Some "http://localhost:3000") (BodyJson []))
    empty_app_world = (Ok not_found_response, empty_app_world).
Proof.
  split.
  - apply (unrouted_requests sample_services sample_env 5 6
             (sample_request "OPTIONS" "/index" (Some "http://localhost:3000") (BodyJson []))
             empty_app_world []); reflexivity.
  - apply (unrouted_requests sample_services sample_env 5 6
             (sample_request "GET" "/api/pesapal-ipn" (Some "http://localhost:3000") (BodyJson []))
             empty_app_world []); try reflexivity; discriminate.
Defined.

Lemma keeps_ret {X A} (f : app_world -> X) (a : A) : keeps f (retA a).
Proof. intros aw. reflexivity. Qed.

Lemma keeps_throw {X A} (f : app_world -> X) (e : string) : keeps f (@throwA A e).
Proof. intros aw. reflexivity. Qed.

Lemma keeps_liftR {X A} (f : app_world -> X) (r : result A) : keeps f (liftR r).
Proof. intros aw. reflexivity. Qed.

Lemma keeps_bind {X A B} (f : app_world -> X) (m : AM A) (k : A -> AM B) :
  keeps f m -> (forall a, keeps f (k a)) -> keeps f (bindA m k).
Proof.
  intros Hm Hk aw. unfold bindA. specialize (Hm aw).
  destruct (m aw) as [[a | e] aw'] eqn:E; cbn in *; [rewrite Hk |]; exact Hm.
Qed.

Lemma keeps_catch {X A} (f : app_world -> X) (m : AM A) (h : string -> AM A) :
  keeps f m -> (forall e, keeps f (h e)) -> keeps f (catchA m h).
Proof.
  intros Hm Hh aw. unfold catchA. specialize (Hm aw).
  destruct (m aw) as [[a | e] aw'] eqn:E; cbn in *; [| rewrite Hh]; exact Hm.
Qed.

Ltac keeps_solve :=
  repeat match goal with
  | |- keeps _ (bindA _ _) => apply keeps_bind; [| intros ?]
  | |- keeps _ (catchA _ _) => apply keeps_catch; [| intros ?]
  | |- keeps _ (retA _) => apply keeps_ret
  | |- keeps _ (throwA _) => apply keeps_throw
  | |- keeps _ (liftR _) => apply keeps_liftR
  | |- keeps _ (if ?b then _ else _) => destruct b
  | |- keeps _ (match ?x with _ => _ end) => destruct x
  | |- keeps _ (pp_execute _ _) => unfold pp_execute
  | |- keeps _ (doc_set _ _ _ _) => unfold doc_set
  | |- keeps _ (doc_update _ _ _ _) => unfold doc_update
  | |- keeps _ (payments_add _ _) => unfold payments_add
  | |- keeps _ (batch_set _ _ _ _ _) => unfold batch_set
  | |- keeps _ (batch_commit _ _) => unfold batch_commit
  | |- keeps _ (auth_create_user _ _) => unfold auth_create_user
  | |- keeps _ (auth_custom_token _ _) => unfold auth_custom_token
  | |- keeps _ _ =>
      let aw := fresh "aw" in
      intros aw; cbn;
      repeat match goal with
             | |- context [match ?x with _ => _ end] => destruct x
             end; reflexivity
  end.

Lemma pesapalA_keeps {A} (m : M A) :
  keeps docs (pesapalA m) /\ keeps paypalPayments (pesapalA m) /\ keeps authUsers (pesapalA m).
Proof.
  unfold keeps, pesapalA. split; [| split]; intros aw; destruct (m (pesapal aw)); reflexivity.
Qed.

Lemma create_paypal_order_keeps (db : firestore) (pp : paypal_api) (now : Z) (body : list (string * jsval)) :
  keeps paypalPayments (create_paypal_order db pp now body) /\
  keeps authUsers (create_paypal_order db pp now body) /\
  keeps pesapal (create_paypal_order db pp now body).
Proof. unfold create_paypal_order. split; [| split]; keeps_solve. Qed.

Lemma capture_paypal_order_keeps (db : firestore) (pp : paypal_api) (now : Z) (body : list (string * jsval)) :
  keeps authUsers (capture_paypal_order db pp now body) /\
  keeps pesapal (capture_paypal_order db pp now body).
Proof. unfold capture_paypal_order. split; keeps_solve. Qed.

Lemma register_developer_keeps (db : firestore) (au : admin_auth) (now : Z) (body : list (string * jsval)) :
  keeps paypalPayments (register_developer db au now body) /\
  keeps pesapal (register_developer db au now body).
Proof. unfold register_developer. split; keeps_solve. Qed.

Lemma get_custom_token_keeps (au : admin_auth) (body : list (string * jsval)) :
  keeps docs (get_custom_token au body) /\ keeps paypalPayments (get_custom_token au body) /\
  keeps authUsers (get_custom_token au body) /\ keeps pesapal (get_custom_token au body).
Proof. unfold get_custom_token. split; [| split; [| split]]; keeps_solve. Qed.

(** X24: Only POST /index adds Firebase Auth users, only POST /api/capture-
    paypal-order adds PayPal payment records, only the two PayPal routes and
    POST /index write paypalOrders, developerTags or users documents, and only
    the three PesaPal routes change the PesaPal orders, payments or gateway
    calls. *)
Theorem serve_store_scope (sv : services) (E : pesapal_env) (now rnd : Z)
    (rq : request) (aw : app_world) :
  let aw' := snd (serve sv E now rnd rq aw) in
  (is_post rq "/index" = false -> authUsers aw' = authUsers aw) /\
  (is_post rq "/api/capture-paypal-order" = false -> paypalPayments aw' = paypalPayments aw) /\
  (is_post rq "/api/create-paypal-order" = false -> is_post rq "/api/capture-paypal-order" = false ->
   is_post rq "/index" = false -> docs aw' = docs aw) /\
  (is_post rq "/api/create-pesapal-order" = false -> is_get rq "/api/pesapal-payment-status" = false ->
   is_post rq "/api/pesapal-ipn" = false -> pesapal aw' = pesapal aw).
Proof.
  intros aw'. subst aw'. unfold serve.
  destruct (rq_body rq) as [body | msg]; [| repeat split; reflexivity].
  destruct (cors_origin (rq_origin rq)); [| repeat split; reflexivity].
  destruct (String.eqb (rq_method rq) "OPTIONS"); [repeat split; reflexivity |].
  destruct (is_post rq "/api/create-pesapal-order") eqn:E1.
  { destruct (pesapalA_keeps (create_pesapal_order E (sv_firestore sv) (sv_gateway sv) now rnd body))
      as (K1 & K2 & K3).
    repeat split; intros; first [congruence | apply K1 | apply K2 | apply K3]. }
  destruct (is_get rq "/api/pesapal-payment-status") eqn:E2.
  { destruct (pesapalA_keeps (A := response)
      (pesapal_payment_status E (sv_firestore sv) (sv_gateway sv) now (field (rq_query rq) "orderId")))
      as (K1 & K2 & K3).
    repeat split; intros; first [congruence | apply K1 | apply K2 | apply K3]. }
  destruct (is_post rq "/api/pesapal-ipn") eqn:E3.
  { destruct (pesapalA_keeps (A := response) (pesapal_ipn (sv_firestore sv) now body)) as (K1 & K2 & K3).
    repeat split; intros; first [congruence | apply K1 | apply K2 | apply K3]. }
  destruct (is_post rq "/api/create-paypal-order") eqn:E4.
  { destruct (create_paypal_order_keeps (sv_firestore sv) (sv_paypal sv) now body) as (K1 & K2 & K3).
    repeat split; intros; first [congruence | apply K1 | apply K2 | apply K3]. }
  destruct (is_post rq "/api/capture-paypal-order") eqn:E5.
  { destruct (capture_paypal_order_keeps (sv_firestore sv) (sv_paypal sv) now body) as (K1 & K2).
    repeat split; intros; first [congruence | apply K1 | apply K2 | apply K3]. }
  destruct (is_post rq "/index") eqn:E6.
  { destruct (register_developer_keeps (sv_firestore sv) (sv_auth sv) now body) as (K1 & K2).
    repeat split; intros; first [congruence | apply K1 | apply K2 | apply K3]. }
  destruct (is_post rq "/getCustomToken").
  { destruct (get_custom_token_keeps (sv_auth sv) body) as (K1 & K2 & K3 & K4).
    repeat split; intros; first [apply K1 | apply K2 | apply K3 | apply K4]. }
  repeat split; reflexivity.
Qed.

Lemma serve_store_scope_witness :
  let rq := sample_request "POST" "/getCustomToken" None (BodyJson [("uid", JStr "dev-5")]) in
  let aw' := snd (serve sample_services sample_env 5 6 rq empty_app_world) in
  authUsers aw' = [] /\ paypalPayments aw' = [] /\ docs aw' = ∅ /\ pesapal aw' = empty_world.
Proof.
  intros rq aw'.
  destruct (serve_store_scope sample_services sample_env 5 6 rq empty_app_world)
    as (S1 & S2 & S3 & S4).
  split; [apply S1; reflexivity |]. split; [apply S2; reflexivity |].
  split; [apply S3; reflexivity | apply S4; reflexivity].
Defined.
